(** * Drone simulator: kinematics, lifecycle and telemetry of [Drone/Drone.py]

    A shallow embedding of the [Drone] class, and what its methods do to
    speed, yaw, flight-time budget, crash count and telemetry.

    Python's [float] is IEEE-754 binary64 with round-to-nearest-even, which
    is exactly the kernel's primitive [float]: every arithmetic operation
    and comparison of the source is written with the primitive operation of
    the same name, and a decimal literal such as [0.2] denotes the nearest
    binary64 value, as it does in Python.  Statements about every float in
    a range rest on the specification of the primitive operations
    ([FloatAxioms]); statements about one run are evaluated.

    A method either returns or raises; it runs in a small state-and-error
    monad over the drone and the screen.  [pygame]'s surface is a partial
    map from pixels to colours, the C library's [cos] and [sin] and the
    lidars' own boundary check are parameters, and the pieces of the
    standard library the telemetry uses ([int], [round], [%], [math.modf],
    [datetime.timedelta]) follow CPython. *)

From Stdlib Require Import Floats ZArith List String Ascii Bool Lia.
Import ListNotations.

Set Warnings "-inexact-float".

(** ** Python's numeric conversions on floats *)

Module PyNum.

Local Open Scope Z_scope.

(** [int(x)]: truncation toward zero; [ValueError] on a NaN and
    [OverflowError] on an infinity are the [None] case. *)
Definition py_int (x : float) : option Z :=
  match Prim2SF x with
  | S754_zero _ => Some 0
  | S754_finite s m e => Some (cond_Zopp s (Z.shiftl (Zpos m) e))
  | S754_infinity _ | S754_nan => None
  end.

(** Nearest integer of [m * 2^e], ties to even. *)
Definition round_half_even (m : positive) (e : Z) : Z :=
  if 0 <=? e then Z.shiftl (Zpos m) e
  else
    let k := - e in
    let q := Z.shiftr (Zpos m) k in
    let r := Zpos m mod 2 ^ k in
    match 2 * r ?= 2 ^ k with
    | Lt => q
    | Gt => q + 1
    | Eq => if Z.even q then q else q + 1
    end.

(** [round(x)] with one argument: the nearest integer, ties to even; it
    raises on a NaN or an infinity. *)
Definition py_round (x : float) : option Z :=
  match Prim2SF x with
  | S754_zero _ => Some 0
  | S754_finite s m e => Some (cond_Zopp s (round_half_even m e))
  | S754_infinity _ | S754_nan => None
  end.

(** C's [fmod] on specification floats: the exact remainder, with the sign
    of the dividend. *)
Definition SFfmod (x y : spec_float) : spec_float :=
  match x, y with
  | S754_nan, _ | _, S754_nan => S754_nan
  | S754_infinity _, _ => S754_nan
  | _, S754_zero _ => S754_nan
  | S754_zero _, _ => x
  | S754_finite _ _ _, S754_infinity _ => x
  | S754_finite sx mx ex, S754_finite _ my ey =>
      let ez := Z.min ex ey in
      let r := (Zpos mx * 2 ^ (ex - ez)) mod (Zpos my * 2 ^ (ey - ez)) in
      binary_normalize prec emax (cond_Zopp sx r) ez sx
  end.

Definition fmod (x y : float) : float := SF2Prim (SFfmod (Prim2SF x) (Prim2SF y)).

(** [x % y] on floats ([float_rem] of CPython): [ZeroDivisionError] when
    [y] is zero; otherwise [fmod], moved into the sign of [y]. *)
Definition py_mod (x y : float) : option float :=
  if (y =? 0)%float then None
  else
    let m := fmod x y in
    if (m =? 0)%float then Some (if (y <? 0)%float then (-0)%float else 0%float)
    else if xorb (y <? 0)%float (m <? 0)%float then Some (m + y)%float
    else Some m.

End PyNum.

Import PyNum.

(** ** Data model *)

(** Modelled from the spec: [DroneState.py] is not part of the sources;
    "mode: enum {GROUND, TAKE_OFF, LAND}", the three members [Drone.py]
    names. *)
Inductive DroneState : Set := GROUND | TAKE_OFF | LAND.

(** The attribute [self.state] first holds the class [DroneState] itself
    ([self.state = DroneState] in [__init__]) and later one of its members. *)
Inductive StateRef : Set :=
  | DroneStateClass
  | Member (s : DroneState).

(** [self.state == DroneState.LAND] *)
Definition is_land (r : StateRef) : bool :=
  match r with
  | Member LAND => true
  | _ => false
  end.

Definition Color : Set := (Z * Z * Z)%type.

Definition color_eqb (c1 c2 : Color) : bool :=
  let '(r1, g1, b1) := c1 in
  let '(r2, g2, b2) := c2 in
  (r1 =? r2)%Z && (g1 =? g2)%Z && (b1 =? b2)%Z.

(** The maze: a pygame surface, read only. *)
Record Surface : Type := mkSurface {
  width : Z;
  height : Z;
  pixels : Z -> Z -> Color
}.

Definition in_surface (m : Surface) (p : Z * Z) : bool :=
  ((0 <=? fst p) && (fst p <? width m) && (0 <=? snd p) && (snd p <? height m))%Z.

(** [maze.get_at((x, y))]: the colour of a pixel; [IndexError] outside the
    surface. *)
Definition get_at (m : Surface) (p : Z * Z) : option Color :=
  if in_surface m p then Some (pixels m (fst p) (snd p)) else None.

Record Lidar : Set := mkLidar {
  relative_angle : float;
  mount_position : Z * Z;
  max_range : Z
}.

(** Modelled from the spec: [Lidar.add_angle] is not part of the sources;
    "add_angle(delta_degrees): relative_angle += delta_degrees (no
    wraparound required)". *)
Definition add_angle (delta : float) (l : Lidar) : Lidar :=
  mkLidar (relative_angle l + delta)%float (mount_position l) (max_range l).

(** Modelled from the spec: [Lidar.move] is not part of the sources;
    "move(new_position): mount_position = new_position". *)
Definition lidar_move (coordinate : Z * Z) (l : Lidar) : Lidar :=
  mkLidar (relative_angle l) coordinate (max_range l).

(** The attributes of a [Drone].  The drone owns its lidars exclusively: a
    lidar is listed once and nothing else holds it, so the list keeps them
    by value. *)
Record Drone : Type := mkDrone {
  state : StateRef;
  yaw : float;
  mode : DroneState;
  speed : float;
  time_in_air : float;
  error_case : Z;
  score : Z;
  radius : float;
  x_position : float;
  y_position : float;
  lidars : list Lidar;
  color : Color;
  bounds_color : Color
}.

Definition MAX_FLIGHT_TIME : float := (60 * 5)%float.

(** [Drone.__init__] *)
Definition init (start_x start_y : float) (color bounds_color : Color)
    (lidars : list Lidar) : Drone :=
  {| state := DroneStateClass;
     yaw := 0;
     mode := GROUND;
     speed := 0;
     time_in_air := MAX_FLIGHT_TIME;
     error_case := 0;
     score := 0;
     radius := 3;
     x_position := start_x;
     y_position := start_y;
     lidars := lidars;
     color := color;
     bounds_color := bounds_color |}.

Definition set_state (v : StateRef) (d : Drone) : Drone :=
  mkDrone v (yaw d) (mode d) (speed d) (time_in_air d) (error_case d) (score d)
    (radius d) (x_position d) (y_position d) (lidars d) (color d) (bounds_color d).

Definition set_yaw (v : float) (d : Drone) : Drone :=
  mkDrone (state d) v (mode d) (speed d) (time_in_air d) (error_case d) (score d)
    (radius d) (x_position d) (y_position d) (lidars d) (color d) (bounds_color d).

Definition set_speed (v : float) (d : Drone) : Drone :=
  mkDrone (state d) (yaw d) (mode d) v (time_in_air d) (error_case d) (score d)
    (radius d) (x_position d) (y_position d) (lidars d) (color d) (bounds_color d).

Definition set_time_in_air (v : float) (d : Drone) : Drone :=
  mkDrone (state d) (yaw d) (mode d) (speed d) v (error_case d) (score d)
    (radius d) (x_position d) (y_position d) (lidars d) (color d) (bounds_color d).

Definition set_error_case (v : Z) (d : Drone) : Drone :=
  mkDrone (state d) (yaw d) (mode d) (speed d) (time_in_air d) v (score d)
    (radius d) (x_position d) (y_position d) (lidars d) (color d) (bounds_color d).

Definition set_position (x y : float) (d : Drone) : Drone :=
  mkDrone (state d) (yaw d) (mode d) (speed d) (time_in_air d) (error_case d) (score d)
    (radius d) x y (lidars d) (color d) (bounds_color d).

Definition set_lidars (v : list Lidar) (d : Drone) : Drone :=
  mkDrone (state d) (yaw d) (mode d) (speed d) (time_in_air d) (error_case d) (score d)
    (radius d) (x_position d) (y_position d) v (color d) (bounds_color d).

(** ** Speed control *)

Local Open Scope float_scope.

(** [Drone.forward], on the speed alone:
[[
    n_speed = self.speed + 0.2 * acc
    self.speed = n_speed if n_speed < 2 else 2
]] *)
Definition forward_speed (acc s : float) : float :=
  let n_speed := s + 0.2 * acc in
  if n_speed <? 2 then n_speed else 2.

(** [Drone.backward], on the speed alone:
[[
    n_speed = self.speed - 0.2 * acc
    self.speed = n_speed if n_speed > 0 else 0.2
]] *)
Definition backward_speed (acc s : float) : float :=
  let n_speed := s - 0.2 * acc in
  if 0 <? n_speed then n_speed else 0.2.

Definition forward (acc : float) (d : Drone) : Drone :=
  set_speed (forward_speed acc (speed d)) d.

Definition backward (acc : float) (d : Drone) : Drone :=
  set_speed (backward_speed acc (speed d)) d.

(** ** The simulation monad

    A method runs on the drone object and on the screen it draws to, and it
    either returns or raises.  The screen keeps the centres of the boundary
    markers drawn by [draw_bounds]; the other drawing calls
    ([pygame.draw.circle] of the drone, [lidar.draw]) leave the drone
    untouched and are not recorded. *)

Record World : Type := mkWorld {
  self : Drone;
  game_display : list (Z * Z)
}.

Definition M (A : Type) : Type := World -> option (A * World).

Definition ret {A : Type} (a : A) : M A := fun w => Some (a, w).

Definition bind {A B : Type} (c : M A) (k : A -> M B) : M B :=
  fun w =>
    match c w with
    | Some (a, w') => k a w'
    | None => None
    end.

Notation "x <- c1 ;; c2" := (bind c1 (fun x => c2))
  (at level 61, c1 at next level, right associativity).
Notation "c1 ;; c2" := (bind c1 (fun _ => c2))
  (at level 61, right associativity).

(** An exception raised by a callee. *)
Definition lift {A : Type} (o : option A) : M A :=
  fun w =>
    match o with
    | Some a => Some (a, w)
    | None => None
    end.

Definition get_self : M Drone := fun w => Some (self w, w).

Definition update (f : Drone -> Drone) : M unit :=
  fun w => Some (tt, mkWorld (f (self w)) (game_display w)).

Fixpoint for_each {A : Type} (xs : list A) (body : A -> M unit) : M unit :=
  match xs with
  | [] => ret tt
  | x :: rest => body x ;; for_each rest body
  end.

(** [Drone.draw_bounds]: a circle of the bounds colour at [coordination]. *)
Definition draw_bounds (coordination : Z * Z) : M unit :=
  fun w => Some (tt, mkWorld (self w) (coordination :: game_display w)).

(** [Drone.get_position]: [(round(self.x_position), round(self.y_position))] *)
Definition get_position : M (Z * Z) :=
  d <- get_self ;;
  x <- lift (py_round (x_position d)) ;;
  y <- lift (py_round (y_position d)) ;;
  ret (x, y).

(** [math.radians]: multiplication by [pi / 180]. *)
Definition radians (x : float) : float := x * (3.141592653589793 / 180).

(** The pressed-key table [key], read at the four arrow keys. *)
Record Keys : Set := mkKeys {
  K_LEFT : bool;
  K_RIGHT : bool;
  K_UP : bool;
  K_DOWN : bool
}.

Section Methods.

(** [math.cos] and [math.sin] come from the C library. *)
Variables cos sin : float -> float.

(** [Lidar.check_bounds(maze)] is not part of the sources: it answers with
    a coordinate pair when the sensor finds a boundary. *)
Variable lidar_check_bounds : Lidar -> Surface -> option (Z * Z).

(** [Drone.check_bounds]:
[[
    for lidar in self.lidars:
        lidar_info = lidar.check_bounds(maze=maze)
        if type(lidar_info) is tuple:
            self.draw_bounds(game_display=game_display, coordination=lidar_info)
    if maze.get_at((int(self.x_position), int(self.y_position))) == self.bounds_color:
        self.error_case += 1
    return False
]] *)
Definition check_bounds (maze : Surface) : M bool :=
  d <- get_self ;;
  for_each (lidars d) (fun lidar =>
    match lidar_check_bounds lidar maze with
    | Some lidar_info => draw_bounds lidar_info
    | None => ret tt
    end) ;;
  d <- get_self ;;
  x <- lift (py_int (x_position d)) ;;
  y <- lift (py_int (y_position d)) ;;
  c <- lift (get_at maze (x, y)) ;;
  (if color_eqb c (bounds_color d)
   then update (fun d => set_error_case (error_case d + 1) d)
   else ret tt) ;;
  ret false.

(** The yaw assignment of [Drone.rotate]:
[[
    self.yaw += direction * self.speed
    if self.yaw >= 360:
        self.yaw = self.yaw % 360
    elif self.yaw < 0:
        self.yaw = 360 + self.yaw
]] *)
Definition rotate_yaw (direction speed yaw : float) : option float :=
  let yaw := yaw + direction * speed in
  if 360 <=? yaw then py_mod yaw 360
  else if yaw <? 0 then Some (360 + yaw)
  else Some yaw.

(** [Drone.rotate]: the yaw assignment, then
[[
    for lidar in self.lidars:
        lidar.add_angle(direction * self.speed)
        lidar.draw(maze=maze, game_display=game_display)
    self.check_bounds(maze=maze, game_display=game_display)
]] *)
Definition rotate (maze : Surface) (direction : float) : M unit :=
  d <- get_self ;;
  y <- lift (rotate_yaw direction (speed d) (yaw d)) ;;
  update (set_yaw y) ;;
  update (fun d => set_lidars (map (add_angle (direction * speed d)) (lidars d)) d) ;;
  check_bounds maze ;;
  ret tt.

(** A sequence of [rotate] calls, one per direction. *)
Fixpoint rotate_all (maze : Surface) (directions : list float) : M unit :=
  match directions with
  | [] => ret tt
  | direction :: rest => rotate maze direction ;; rotate_all maze rest
  end.

(** [Drone.calc_x] and [Drone.calc_y] *)
Definition calc_x (d : Drone) : float := cos (radians (yaw d)) * radius d.

Definition calc_y (d : Drone) : float := sin (radians (yaw d)) * radius d.

(** [Drone.change_lidars_positions]: every lidar is moved to
    [self.get_position()], which is evaluated once per lidar.  The
    [lidar.draw] call that follows each [lidar.move] is a drawing call of
    the lidar class, which the screen of this model does not record: it
    keeps the markers of [draw_bounds] only. *)
Fixpoint moved_lidars (ls : list Lidar) : M (list Lidar) :=
  match ls with
  | [] => ret []
  | l :: rest =>
      p <- get_position ;;
      rest' <- moved_lidars rest ;;
      ret (lidar_move p l :: rest')
  end.

Definition change_lidars_positions : M unit :=
  d <- get_self ;;
  ls <- moved_lidars (lidars d) ;;
  update (set_lidars ls).

(** [Drone.is_crashed]:
[[
    if maze.get_at(self.get_position()) == self.bounds_color:
        self.error_case += 1
        return True
    return False
]] *)
Definition is_crashed (maze : Surface) : M bool :=
  p <- get_position ;;
  c <- lift (get_at maze p) ;;
  d <- get_self ;;
  if color_eqb c (bounds_color d)
  then update (fun d => set_error_case (error_case d + 1) d) ;; ret true
  else ret false.

(** [Drone.move]:
[[
    self.x_position += self.speed * self.calc_x()
    self.y_position += self.speed * self.calc_y()
    self.change_lidars_positions(maze=maze, game_display=game_display)
    self.is_crashed(maze=maze)
]] *)
Definition move (maze : Surface) : M unit :=
  update (fun d => set_position (x_position d + speed d * calc_x d) (y_position d) d) ;;
  update (fun d => set_position (x_position d) (y_position d + speed d * calc_y d) d) ;;
  change_lidars_positions ;;
  is_crashed maze ;;
  ret tt.

(** The budget assignment of [Drone.handle_keys]:
[[
    self.time_in_air -= 1 / 25 if self.time_in_air > 0 else self.time_in_air
]] *)
Definition tick (t : float) : float :=
  t - (if 0 <? t then 1 / 25 else t).

(** [Drone.handle_keys] *)
Definition handle_keys (maze : Surface) (key : Keys) : M bool :=
  d <- get_self ;;
  (if is_land (state d) then update (set_state (Member TAKE_OFF)) else ret tt) ;;
  update (fun d => set_time_in_air (tick (time_in_air d)) d) ;;
  d <- get_self ;;
  if time_in_air d =? 0 then
    update (set_state (Member LAND)) ;; ret false
  else
    check_bounds maze ;;
    if K_LEFT key then rotate maze (-1) ;; ret true
    else if K_RIGHT key then rotate maze 1 ;; ret true
    else if K_UP key then update (forward 1) ;; move maze ;; ret true
    else if K_DOWN key then update (backward 1) ;; move maze ;; ret true
    else ret false.

(** The control loop: one [handle_keys] call per key table, in order; the
    answers are collected in the order of the calls. *)
Fixpoint run (maze : Surface) (keys : list Keys) : M (list bool) :=
  match keys with
  | [] => ret []
  | k :: rest =>
      b <- handle_keys maze k ;;
      bs <- run maze rest ;;
      ret (b :: bs)
  end.

(** A client that calls the public methods directly, one after another. *)
Inductive Call : Set :=
  | Forward
  | Backward
  | Rotate (direction : float)
  | Move
  | HandleKeys (key : Keys).

Definition call (maze : Surface) (c : Call) : M unit :=
  match c with
  | Forward => update (forward 1)
  | Backward => update (backward 1)
  | Rotate direction => rotate maze direction
  | Move => move maze
  | HandleKeys key => handle_keys maze key ;; ret tt
  end.

Fixpoint calls (maze : Surface) (cs : list Call) : M unit :=
  match cs with
  | [] => ret tt
  | c :: rest => call maze c ;; calls maze rest
  end.

End Methods.

(** ** Telemetry *)

Module Timedelta.

Local Open Scope Z_scope.

(** A [datetime.timedelta], normalised as its constructor leaves it:
    [0 <= seconds < 86400] and [0 <= microseconds < 1000000]. *)
Record timedelta : Set := mkTimedelta {
  days : Z;
  seconds : Z;
  microseconds : Z
}.

(** The fractional part [math.modf] returns: exact, with the sign of its
    argument. *)
Definition SFmodf_frac (x : spec_float) : spec_float :=
  match x with
  | S754_nan => S754_nan
  | S754_infinity s => S754_zero s
  | S754_zero s => S754_zero s
  | S754_finite s m e =>
      if 0 <=? e then S754_zero s
      else binary_normalize prec emax (cond_Zopp s (Zpos m mod 2 ^ (- e))) e s
  end.

Definition modf_frac (x : float) : float := SF2Prim (SFmodf_frac (Prim2SF x)).

(** [timedelta(seconds=s)] for a float [s]: the whole seconds, plus the
    fraction scaled to microseconds in floating point and rounded to the
    nearest integer, ties to even; [OverflowError] beyond 999999999 days. *)
Definition of_seconds (s : float) : option timedelta :=
  match py_int s, py_round (modf_frac s * 1e6)%float with
  | Some whole, Some us =>
      let total := whole * 1000000 + us in
      let d := total / 86400000000 in
      if (Z.abs d <=? 999999999) then
        Some (mkTimedelta d ((total / 1000000) mod 86400) (total mod 1000000))
      else None
  | _, _ => None
  end.

Definition digit_char (n : Z) : ascii := ascii_of_nat (48 + Z.to_nat n).

Fixpoint decimal (fuel : nat) (n : Z) (acc : string) : string :=
  let acc' := String (digit_char (n mod 10)) acc in
  match fuel with
  | O => acc'
  | S fuel' => if n <? 10 then acc' else decimal fuel' (n / 10) acc'
  end.

(** ["%d" % n] *)
Definition format_d (n : Z) : string :=
  let digits := decimal (Z.to_nat (Z.log2 (Z.abs n))) (Z.abs n) EmptyString in
  if n <? 0 then String "-" digits else digits.

Fixpoint zeros (k : nat) (s : string) : string :=
  match k with
  | O => s
  | S k' => String "0" (zeros k' s)
  end.

(** ["%0wd" % n], for [n >= 0] *)
Definition format_0d (w : nat) (n : Z) : string :=
  let s := format_d n in
  zeros (w - String.length s) s.

(** ["%d:%02d:%02d" % (hh, mm, ss)] with
    [mm, ss = divmod(seconds, 60)] and [hh, mm = divmod(mm, 60)] *)
Definition clock (seconds : Z) : string :=
  let mm := seconds / 60 in
  let ss := seconds mod 60 in
  let hh := mm / 60 in
  let mm := mm mod 60 in
  (format_d hh ++ ":" ++ format_0d 2 mm ++ ":" ++ format_0d 2 ss)%string.

(** [timedelta.__str__]: the clock, after the days when there are any, and
    before the microseconds when there are any. *)
Definition str (t : timedelta) : string :=
  let s := clock (seconds t) in
  let plural := if Z.abs (days t) =? 1 then EmptyString else String "s" EmptyString in
  let s :=
    if days t =? 0 then s
    else (format_d (days t) ++ " day" ++ plural ++ ", " ++ s)%string in
  if microseconds t =? 0 then s
  else (s ++ "." ++ format_0d 6 (microseconds t))%string.

End Timedelta.

(** [s.split('.')[0]]: the text before the first dot. *)
Fixpoint before_dot (s : string) : string :=
  match s with
  | EmptyString => EmptyString
  | String c rest => if Ascii.eqb c "." then EmptyString else String c (before_dot rest)
  end.

(** [str(timedelta(seconds=self.time_in_air)).split('.')[0]] *)
Definition battery (time_in_air : float) : option string :=
  option_map (fun t => before_dot (Timedelta.str t)) (Timedelta.of_seconds time_in_air).

(** The dictionary [get_info_dict] returns, one field per key. *)
Record Info : Type := mkInfo {
  info_yaw : float;
  info_speed : float;
  info_left : Lidar;
  info_right : Lidar;
  info_head : Lidar;
  info_crash : Z;
  info_score : Z;
  info_battery : string
}.

(** [Drone.get_info_dict]; [IndexError] with fewer than three lidars. *)
Definition get_info_dict (d : Drone) : option Info :=
  match nth_error (lidars d) 2, nth_error (lidars d) 1, nth_error (lidars d) 0,
        battery (time_in_air d) with
  | Some l2, Some l1, Some l0, Some b =>
      Some (mkInfo (yaw d) (speed d) l2 l1 l0 (error_case d) (score d) b)
  | _, _, _, _ => None
  end.

(** The shape [H:MM:SS]: one or more digits, a colon, two digits, a colon,
    two digits, and nothing else. *)
Definition is_digit (c : ascii) : bool :=
  (48 <=? nat_of_ascii c)%nat && (nat_of_ascii c <=? 57)%nat.

Definition is_MM_SS (s : string) : bool :=
  match s with
  | String m1 (String m2 (String c (String s1 (String s2 EmptyString)))) =>
      is_digit m1 && is_digit m2 && Ascii.eqb c ":" && is_digit s1 && is_digit s2
  | _ => false
  end.

Fixpoint is_H_MM_SS_from (seen_digit : bool) (s : string) : bool :=
  match s with
  | EmptyString => false
  | String c rest =>
      if is_digit c then is_H_MM_SS_from true rest
      else seen_digit && Ascii.eqb c ":" && is_MM_SS rest
  end.

Definition is_H_MM_SS (s : string) : bool := is_H_MM_SS_from false s.

(** A clock text has the shape [H:MM:SS] and holds no dot. *)
Definition clock_ok (seconds : Z) : bool :=
  let s := Timedelta.clock seconds in
  is_H_MM_SS s && String.eqb (before_dot s) s.

(** [f] holds at the [n] integers from [z] on. *)
Fixpoint all_from (z : Z) (n : nat) (f : Z -> bool) : bool :=
  match n with
  | O => true
  | S n' => f z && all_from (z + 1) n' f
  end.

(** ** What the statements below speak about *)

(** The colour under the drone as [check_bounds] samples it, at
    [(int(x), int(y))]; [None] when the sample raises. *)
Definition own_pixel (maze : Surface) (d : Drone) : option Color :=
  match py_int (x_position d), py_int (y_position d) with
  | Some x, Some y => get_at maze (x, y)
  | _, _ => None
  end.

(** The colour under the drone as [is_crashed] samples it, at
    [(round(x), round(y))]. *)
Definition rounded_pixel (maze : Surface) (d : Drone) : option Color :=
  match py_round (x_position d), py_round (y_position d) with
  | Some x, Some y => get_at maze (x, y)
  | _, _ => None
  end.

Definition rounded_position (d : Drone) : option (Z * Z) :=
  match py_round (x_position d), py_round (y_position d) with
  | Some x, Some y => Some (x, y)
  | _, _ => None
  end.

(** One more crash when the sampled colour is the bounds colour. *)
Definition crash_after (c : Color) (d : Drone) : Z :=
  error_case d + (if color_eqb c (bounds_color d) then 1 else 0)%Z.

(** The drone after the two position assignments of [move]. *)
Definition advanced (cos sin : float -> float) (d : Drone) : Drone :=
  let d1 := set_position (x_position d + speed d * calc_x cos d) (y_position d) d in
  set_position (x_position d1) (y_position d1 + speed d1 * calc_y sin d1) d1.

(** The deltas of a sequence of rotate calls at one speed: the product
    [direction * speed] of each call, in the order of the calls. *)
Definition deltas (directions : list float) (speed : float) : list float :=
  map (fun direction => direction * speed) directions.

(** The normalisation of a raw yaw, in the spec's words: "normalize yaw
    into [0,360) by modulo (handle negative results by adding 360 once)".
    It does not mention [rotate] or its yaw assignment. *)
Definition normalized (raw : float) : option float :=
  if 360 <=? raw then py_mod raw 360
  else if raw <? 0 then Some (360 + raw)
  else Some raw.

(** The yaw after a list of deltas has been added to it one by one, each
    raw sum normalised before the next delta is added. *)
Fixpoint yaw_after (ds : list float) (yaw : float) : option float :=
  match ds with
  | [] => Some yaw
  | delta :: rest =>
      match normalized (yaw + delta) with
      | Some yaw' => yaw_after rest yaw'
      | None => None
      end
  end.

(** A relative angle after the same list of deltas has been added to it
    one by one. *)
Definition angle_after (ds : list float) (angle : float) : float :=
  fold_left (fun a delta => a + delta) ds angle.

(** No raw sum along the list leaves [0, 360): the normalisation has
    nothing to do. *)
Fixpoint unwrapped (ds : list float) (yaw : float) : bool :=
  match ds with
  | [] => true
  | delta :: rest =>
      let raw := yaw + delta in
      negb (360 <=? raw) && negb (raw <? 0) && unwrapped rest raw
  end.

(** The markers one pass over the lidars draws on top of [screen]. *)
Definition sightings (lidar_check_bounds : Lidar -> Surface -> option (Z * Z))
    (maze : Surface) (ls : list Lidar) (screen : list (Z * Z)) : list (Z * Z) :=
  fold_left (fun acc l =>
    match lidar_check_bounds l maze with
    | Some p => p :: acc
    | None => acc
    end) ls screen.

(** The C library's answers on the axis [yaw = 0] are exact: [cos 0 = 1]
    and [sin 0 = 0].  The concrete runs below keep the drone on that axis
    while it moves; off the axis the two tables answer NaN, which makes any
    run that would need another value raise instead of inventing one. *)
Definition cos_axis (x : float) : float := if x =? 0 then 1 else nan.

Definition sin_axis (x : float) : float := if x =? 0 then 0 else nan.

(** Lidars that see nothing. *)
Definition blind : Lidar -> Surface -> option (Z * Z) := fun _ _ => None.

Definition white : Color := (255, 255, 255)%Z.

Definition black : Color := (0, 0, 0)%Z.

(** A white field of [w] by [h] pixels. *)
Definition field (w h : Z) : Surface := mkSurface w h (fun _ _ => white).

(** A surface of [w] by [h] pixels that is black everywhere except at [p]. *)
Definition walls_except (w h : Z) (p : Z * Z) : Surface :=
  mkSurface w h (fun x y => if ((x =? fst p) && (y =? snd p))%Z then white else black).

Definition no_key : Keys := mkKeys false false false false.

Definition left_key : Keys := mkKeys true false false false.

Definition right_key : Keys := mkKeys false true false false.

Definition up_key : Keys := mkKeys false false true false.

Definition down_key : Keys := mkKeys false false false true.

(** A drone fresh from [__init__] at [(x, y)], with black bounds and the
    given lidars, in front of an empty screen. *)
Definition fresh (x y : float) (ls : list Lidar) : World :=
  mkWorld (init x y (0, 0, 255)%Z black ls) [].

Definition three_lidars : list Lidar :=
  [mkLidar 0 (0, 0)%Z 100; mkLidar 30 (0, 0)%Z 100; mkLidar (-30) (0, 0)%Z 100].

Definition up_then_down (ups downs : nat) : list Keys :=
  repeat up_key ups ++ repeat down_key downs.

Definition speed_after (keys : list Keys) : option float :=
  option_map (fun r => speed (self (snd r)))
    (run cos_axis sin_axis blind (field 400 200) keys (fresh 100 100 three_lidars)).

Definition yaw_after_keys (keys : list Keys) : option float :=
  option_map (fun r => yaw (self (snd r)))
    (run cos_axis sin_axis blind (field 400 200) keys (fresh 100 100 three_lidars)).

(** Speed and yaw after a list of method calls on a fresh drone standing
    at [(100, 100)] in the white field. *)
Definition speed_and_yaw_after (cs : list Call) : option (float * float) :=
  option_map (fun r => (speed (self (snd r)), yaw (self (snd r))))
    (calls cos_axis sin_axis blind (field 400 200) cs (fresh 100 100 three_lidars)).

(** A drone whose budget is spent. *)
Definition exhausted : World :=
  mkWorld (set_time_in_air 0 (init 100 100 (0, 0, 255)%Z black three_lidars)) [].

(** A drone at speed 1 on the only white pixel, [(3, 3)], of a black raster. *)
Definition walled_in : World :=
  mkWorld (set_speed 1 (init 3 3 (0, 0, 255)%Z black three_lidars)) [].

(** A drone at full speed in the white field. *)
Definition spinning : World :=
  mkWorld (set_speed 2 (init 100 100 (0, 0, 255)%Z black three_lidars)) [].

(** ** What the further statements speak about *)

(** The drone once [handle_keys] has left [LAND] behind and charged the
    call to the budget. *)
Definition entered (d : Drone) : Drone :=
  set_time_in_air (tick (time_in_air d))
    (if is_land (state d) then set_state (Member TAKE_OFF) d else d).

(** One more crash when [c] is the bounds colour. *)
Definition bump (c : Color) (d : Drone) : Drone :=
  if color_eqb c (bounds_color d) then set_error_case (error_case d + 1) d else d.

(** The one intent a key table stands for: the first pressed key in the
    order left, right, up, down. *)
Definition dominant (key : Keys) : Keys :=
  if K_LEFT key then left_key
  else if K_RIGHT key then right_key
  else if K_UP key then up_key
  else if K_DOWN key then down_key
  else no_key.

(** The world a call leaves behind when it finds the budget spent. *)
Definition landed (w : World) : World :=
  mkWorld (set_state (Member LAND) (set_time_in_air 0 (self w))) (game_display w).

(** The states a drone can show: the class [DroneState] itself, as
    [__init__] leaves it, or [LAND] with the budget at zero. *)
Definition grounded (d : Drone) : Prop :=
  state d = DroneStateClass \/
  (state d = Member LAND /\ (time_in_air d =? 0) = true).

(** The fields no method writes, and the number of lidars. *)
Definition same_build (d0 d : Drone) : Prop :=
  mode d = mode d0 /\ score d = score d0 /\ radius d = radius d0 /\
  color d = color d0 /\ bounds_color d = bounds_color d0 /\
  List.length (lidars d) = List.length (lidars d0).

(** A speed between 0 and 2. *)
Definition in_range (d : Drone) : Prop :=
  (0 <=? speed d) = true /\ (speed d <=? 2) = true.

(** A drone whose budget has passed zero, as 7500 calls leave it. *)
Definition overdrawn : World :=
  mkWorld (set_time_in_air (-5.8267973779280169e-12)
             (init 100 100 (0, 0, 255)%Z black three_lidars)) [].

(** A drone at speed 1 on a black pixel, [(5, 5)], of a raster whose only
    white pixel is elsewhere. *)
Definition on_the_wall : World :=
  mkWorld (set_speed 1 (init 5 5 (0, 0, 255)%Z black three_lidars)) [].

(** A fresh drone to the right of a raster 400 pixels wide. *)
Definition off_the_raster : World := fresh 500 100 three_lidars.

(** A fresh drone in the last column of a raster 400 pixels wide, past
    the centre of that column. *)
Definition at_the_edge : World := fresh 399.6 100 three_lidars.

(** A drone between pixel centres. *)
Definition between_pixels : Drone := init 2.6 7.5 (0, 0, 255)%Z black three_lidars.

(** A short flight: two throttle-up frames, the throttle methods called
    directly, a move, and a frame that turns right. *)
Definition short_flight : list Call :=
  [HandleKeys up_key; HandleKeys up_key; Backward; Forward; Move; HandleKeys right_key].

(** ** Reading binary64 values as integers *)

Module Binary64Defs.

Local Open Scope Z_scope.

(** What the rounding of the specification returns for a mantissa [m] at
    exponent [e]. *)
Definition rounded (m e : Z) : spec_float :=
  match m with
  | Z0 => S754_zero false
  | Zpos p => if e <=? emax - prec then S754_finite false p e else S754_infinity false
  | Zneg _ => S754_nan
  end.

(** The value of a nonnegative finite float, in units of [2 ^ -1074]. *)
Definition units (m : positive) (e : Z) : Z := Zpos m * 2 ^ (e + 1074).

(** The gain of one [forward] call that stays below 2, in units: the
    step 0.2 less the rounding of one addition below 4. *)
Definition gain : Z := units 7205759403792794 (-55) - 2 ^ 1024.

Definition at_least (k : Z) (s : float) : Prop :=
  exists m e, Prim2SF s = S754_finite false m e /\ k * gain <= units m e.

End Binary64Defs.

Import Binary64Defs.

(** * Properties *)

(** ** Checks of the numeric and text helpers against Python's answers *)

Example py_mod_ex : py_mod 361.5 360 = Some 1.5.
Proof. vm_compute. reflexivity. Qed.

Example py_round_ex : map py_round [0.5; 1.5; 2.5; -0.5; -1.5; 2.4; 2.6; 1e3]
  = map Some [0; 2; 2; 0; -2; 2; 3; 1000]%Z.
Proof. vm_compute. reflexivity. Qed.

Example py_int_ex : map py_int [0.5; 1.5; -2.5; 299.96; -0.3] = map Some [0; 1; -2; 299; 0]%Z.
Proof. vm_compute. reflexivity. Qed.

Example battery_ex :
  map battery [300; 299.96; 0.04; 0; 59.99999999; 0.9999995; 0.9999994999; -5.8e-12; 86400; -1]
  = map Some ["0:05:00"; "0:04:59"; "0:00:00"; "0:00:00"; "0:01:00"; "0:00:01"; "0:00:00";
              "0:00:00"; "1 day, 0:00:00"; "-1 day, 23:59:59"]%string.
Proof. vm_compute. reflexivity. Qed.

Example str_ex :
  Timedelta.str (Timedelta.mkTimedelta 0 299 960000) = "0:04:59.960000"%string.
Proof. vm_compute. reflexivity. Qed.

Example is_H_MM_SS_ex :
  map is_H_MM_SS ["0:05:00"; "12:00:59"; ":05:00"; "0:5:00"; "0:05:00.5"; "1 day, 0:00:00"]%string
  = [true; true; false; false; false; false].
Proof. vm_compute. reflexivity. Qed.

(** ** Binary64 rounding, from the specification of the primitive floats

    The kernel's floats are specified by [SpecFloat]: an operation rounds
    the exact result with [binary_round_aux].  The lemmas below bound what
    that rounding returns, in integers scaled by a power of two. *)

Module Binary64.

Local Open Scope Z_scope.

Lemma pow2_pos (k : Z) : 0 <= k -> 0 < 2 ^ k.
Proof. intros. apply Z.pow_pos_nonneg; lia. Qed.

Lemma pow2_le (a b : Z) : 0 <= a <= b -> 2 ^ a <= 2 ^ b.
Proof. intros. apply Z.pow_le_mono_r; lia. Qed.

Lemma pow2_split (a b : Z) : 0 <= a -> 0 <= b -> 2 ^ (a + b) = 2 ^ a * 2 ^ b.
Proof. intros. apply Z.pow_add_r; lia. Qed.

Lemma digits2_pos_bounds (p : positive) :
  2 ^ (Zpos (digits2_pos p) - 1) <= Zpos p < 2 ^ Zpos (digits2_pos p).
Proof.
  induction p as [p IH|p IH|]; cbn [digits2_pos].
  - rewrite Pos2Z.inj_succ.
    replace (Z.succ (Zpos (digits2_pos p)) - 1) with (1 + (Zpos (digits2_pos p) - 1)) by lia.
    replace (Z.succ (Zpos (digits2_pos p))) with (1 + Zpos (digits2_pos p)) by lia.
    rewrite !pow2_split by lia. change (2 ^ 1) with 2. lia.
  - rewrite Pos2Z.inj_succ.
    replace (Z.succ (Zpos (digits2_pos p)) - 1) with (1 + (Zpos (digits2_pos p) - 1)) by lia.
    replace (Z.succ (Zpos (digits2_pos p))) with (1 + Zpos (digits2_pos p)) by lia.
    rewrite !pow2_split by lia. change (2 ^ 1) with 2. lia.
  - cbn. lia.
Qed.

(** A number up to [2 ^ k] has at most [k + 1] binary digits. *)
Lemma Zdigits2_le (m k : Z) : 0 <= k -> 0 <= m <= 2 ^ k -> Zdigits2 m <= k + 1.
Proof.
  intros Hk [H0 Hm]. destruct m as [|p|p]; cbn; try lia.
  destruct (digits2_pos_bounds p) as [Hlo _].
  destruct (Z_le_gt_dec (Zpos (digits2_pos p)) (k + 1)) as [|Hgt]; [assumption|].
  assert (2 ^ (k + 1) <= 2 ^ (Zpos (digits2_pos p) - 1)) by (apply pow2_le; lia).
  rewrite pow2_split in H by lia. change (2 ^ 1) with 2 in H.
  pose proof (pow2_pos k Hk). lia.
Qed.

Lemma shr_1_m (mrs : shr_record) :
  0 <= shr_m mrs -> shr_m (shr_1 mrs) = shr_m mrs / 2.
Proof.
  destruct mrs as [m r s]. cbn [shr_m]. intros Hm.
  destruct m as [|[p|p|]|p]; cbn [shr_1 shr_m].
  - reflexivity.
  - rewrite Pos2Z.inj_xI. apply Z.div_unique with 1; lia.
  - rewrite Pos2Z.inj_xO. apply Z.div_unique with 0; lia.
  - reflexivity.
  - lia.
Qed.

Lemma pow2_xO (p : positive) : 2 ^ Zpos p~0 = 2 ^ Zpos p * 2 ^ Zpos p.
Proof. rewrite <- pow2_split by lia. f_equal. lia. Qed.

Lemma pow2_xI (p : positive) : 2 ^ Zpos p~1 = 2 * (2 ^ Zpos p * 2 ^ Zpos p).
Proof.
  rewrite Pos2Z.inj_xI.
  replace (2 * Zpos p + 1) with (1 + (Zpos p + Zpos p)) by lia.
  rewrite !pow2_split by lia. reflexivity.
Qed.

Lemma iter_shr_1_m (p : positive) (mrs : shr_record) :
  0 <= shr_m mrs -> shr_m (SpecFloat.iter_pos shr_1 p mrs) = shr_m mrs / 2 ^ Zpos p.
Proof.
  revert mrs. induction p as [p IH|p IH|]; intros mrs Hm; cbn [SpecFloat.iter_pos].
  - assert (H1 : 0 <= shr_m (shr_1 mrs)) by (rewrite shr_1_m by lia; apply Z.div_pos; lia).
    assert (H2 : 0 <= shr_m (SpecFloat.iter_pos shr_1 p (shr_1 mrs))).
    { rewrite IH by lia. apply Z.div_pos; [lia|apply pow2_pos; lia]. }
    rewrite IH, IH, shr_1_m by lia.
    pose proof (pow2_pos (Zpos p) ltac:(lia)).
    rewrite !Z.div_div by lia.
    rewrite pow2_xI. reflexivity.
  - assert (H2 : 0 <= shr_m (SpecFloat.iter_pos shr_1 p mrs)).
    { rewrite IH by lia. apply Z.div_pos; [lia|apply pow2_pos; lia]. }
    rewrite IH, IH by lia.
    pose proof (pow2_pos (Zpos p) ltac:(lia)).
    rewrite !Z.div_div by lia.
    rewrite pow2_xO. reflexivity.
  - rewrite shr_1_m by lia. reflexivity.
Qed.

Lemma shr_record_of_loc_m (m : Z) (l : location) : shr_m (shr_record_of_loc m l) = m.
Proof. destruct l as [|[| |]]; reflexivity. Qed.

(** [shr_fexp] moves a nonnegative mantissa to the exponent the format
    asks for, by a floor division, and never to a smaller exponent. *)
Lemma shr_fexp_spec (m e : Z) (l : location) :
  0 <= m ->
  snd (shr_fexp prec emax m e l) = Z.max e (fexp prec emax (Zdigits2 m + e)) /\
  shr_m (fst (shr_fexp prec emax m e l)) = m / 2 ^ (snd (shr_fexp prec emax m e l) - e).
Proof.
  intros Hm. unfold shr_fexp, shr.
  set (f := fexp prec emax (Zdigits2 m + e)).
  destruct (f - e) as [|n|n] eqn:Hn; cbn [fst snd].
  - split; [lia|]. rewrite Z.sub_diag, Z.div_1_r. apply shr_record_of_loc_m.
  - split; [lia|].
    rewrite iter_shr_1_m by (rewrite shr_record_of_loc_m; assumption).
    rewrite shr_record_of_loc_m. f_equal. f_equal. lia.
  - split; [lia|]. rewrite Z.sub_diag, Z.div_1_r. apply shr_record_of_loc_m.
Qed.

Lemma round_nearest_even_bounds (m : Z) (l : location) :
  m <= round_nearest_even m l <= m + 1.
Proof.
  destruct l as [|[| |]]; cbn; try lia.
  destruct (Z.even m); lia.
Qed.

Lemma fexp_mono (a b : Z) : a <= b -> fexp prec emax a <= fexp prec emax b.
Proof. unfold fexp. lia. Qed.

Lemma fexp_succ (a : Z) : fexp prec emax (a + 1) <= fexp prec emax a + 1.
Proof. unfold fexp. lia. Qed.

Lemma binary_round_aux_spec (M : positive) (E K : Z) :
  0 <= E + K ->
  exists m e,
    binary_round_aux prec emax false (Zpos M) E loc_Exact = rounded m e /\
    0 <= m /\
    E <= e <= Z.max E (fexp prec emax (Zpos (digits2_pos M) + E) + 1) /\
    (m - 1) * 2 ^ (e + K) <= Zpos M * 2 ^ (E + K) < (m + 1) * 2 ^ (e + K).
Proof.
  intros HK. unfold binary_round_aux.
  destruct (shr_fexp_spec (Zpos M) E loc_Exact) as [He1 Hm1]; [lia|].
  destruct (shr_fexp prec emax (Zpos M) E loc_Exact) as [mrs1 e1]. cbn [fst snd] in *.
  set (m2 := round_nearest_even (shr_m mrs1) (loc_of_shr_record mrs1)).
  pose proof (round_nearest_even_bounds (shr_m mrs1) (loc_of_shr_record mrs1)) as Hm2.
  fold m2 in Hm2.
  set (F := fexp prec emax (Zpos (digits2_pos M) + E)) in *.
  cbn [Zdigits2] in He1.
  assert (Ha : 0 < 2 ^ (e1 - E)) by (apply pow2_pos; lia).
  assert (Hm1' : 0 <= shr_m mrs1) by (rewrite Hm1; apply Z.div_pos; lia).
  destruct (shr_fexp_spec m2 e1 loc_Exact) as [He3 Hm3]; [lia|].
  destruct (shr_fexp prec emax m2 e1 loc_Exact) as [mrs3 e3]. cbn [fst snd] in *.
  assert (Hb : 0 < 2 ^ (e3 - e1)) by (apply pow2_pos; lia).
  exists (shr_m mrs3), e3.
  assert (Hm3' : 0 <= shr_m mrs3) by (rewrite Hm3; apply Z.div_pos; lia).
  split; [|split; [assumption|split]].
  - unfold rounded. destruct (shr_m mrs3); reflexivity.
  - split; [lia|].
    assert (Hd : Zdigits2 m2 + e1 <= Zpos (digits2_pos M) + E + 1 \/ Zdigits2 m2 + e1 <= F + 1).
    { destruct (digits2_pos_bounds M) as [_ Hup].
      destruct (Z_le_gt_dec (e1 - E) (Zpos (digits2_pos M))) as [Hle|Hgt].
      - left.
        assert (Zdigits2 m2 <= (Zpos (digits2_pos M) - (e1 - E)) + 1); [|lia].
        apply Zdigits2_le; [lia|]. split; [lia|].
        assert (shr_m mrs1 < 2 ^ (Zpos (digits2_pos M) - (e1 - E))); [|lia].
        rewrite Hm1. apply Z.div_lt_upper_bound; [lia|].
        rewrite <- pow2_split by lia.
        replace (e1 - E + (Zpos (digits2_pos M) - (e1 - E))) with (Zpos (digits2_pos M)) by lia.
        assumption.
      - right.
        assert (shr_m mrs1 = 0).
        { rewrite Hm1. apply Z.div_small. split; [lia|].
          apply Z.lt_le_trans with (1 := Hup). apply pow2_le. lia. }
        assert (Zdigits2 m2 <= 0 + 1) by (apply Zdigits2_le; [lia|change (2 ^ 0) with 1; lia]).
        lia. }
    pose proof (fexp_succ (Zpos (digits2_pos M) + E)) as Hs. fold F in Hs.
    destruct Hd as [Hd|Hd].
    + pose proof (fexp_mono _ _ Hd). lia.
    + pose proof (fexp_mono _ _ Hd) as Hf.
      assert (fexp prec emax (F + 1) <= F + 1).
      { unfold F, fexp, SpecFloat.emin, prec, emax. lia. }
      lia.
  - replace (e3 + K) with ((e3 - e1) + ((e1 - E) + (E + K))) by lia.
    rewrite !pow2_split by lia.
    set (a := 2 ^ (e1 - E)) in *. set (b := 2 ^ (e3 - e1)) in *.
    set (c := 2 ^ (E + K)). assert (Hc : 0 < c) by (apply pow2_pos; lia).
    assert (H1 : shr_m mrs1 * a <= Zpos M < (shr_m mrs1 + 1) * a).
    { rewrite Hm1. pose proof (Z.mul_div_le (Zpos M) a Ha).
      pose proof (Z.mul_succ_div_gt (Zpos M) a Ha). lia. }
    assert (H3 : shr_m mrs3 * b <= m2 < (shr_m mrs3 + 1) * b).
    { rewrite Hm3. pose proof (Z.mul_div_le m2 b Hb).
      pose proof (Z.mul_succ_div_gt m2 b Hb). lia. }
    split.
    + apply Z.le_trans with ((Zpos M) * c); [|lia].
      assert ((shr_m mrs3 - 1) * (b * a) <= Zpos M); [|nia].
      nia.
    + assert (Zpos M < (shr_m mrs3 + 1) * (b * a)); [|nia].
      nia.
Qed.

Lemma iter_xO_val (d mx : positive) : Zpos (Pos.iter xO mx d) = Zpos mx * 2 ^ Zpos d.
Proof.
  induction d as [|d IH] using Pos.peano_ind.
  - cbn. lia.
  - rewrite Pos.iter_succ, Pos2Z.inj_xO, IH, Pos2Z.inj_succ.
    replace (Z.succ (Zpos d)) with (1 + Zpos d) by lia.
    rewrite pow2_split by lia. change (2 ^ 1) with 2. lia.
Qed.

Lemma iter_xO_digits (d mx : positive) :
  Zpos (digits2_pos (Pos.iter xO mx d)) = Zpos (digits2_pos mx) + Zpos d.
Proof.
  induction d as [|d IH] using Pos.peano_ind.
  - cbn. lia.
  - rewrite Pos.iter_succ. cbn [digits2_pos]. rewrite Pos2Z.inj_succ, IH. lia.
Qed.

Lemma shl_align_spec (mx : positive) (ex ex' : Z) :
  snd (shl_align mx ex ex') = Z.min ex ex' /\
  Zpos (fst (shl_align mx ex ex')) = Zpos mx * 2 ^ (ex - snd (shl_align mx ex ex')) /\
  Zpos (digits2_pos (fst (shl_align mx ex ex'))) + snd (shl_align mx ex ex')
    = Zpos (digits2_pos mx) + ex.
Proof.
  unfold shl_align. destruct (ex' - ex) as [|d|d] eqn:Hd; cbn [fst snd].
  - split; [lia|]. rewrite Z.sub_diag. split; lia.
  - split; [lia|]. rewrite Z.sub_diag. split; lia.
  - split; [lia|]. rewrite iter_xO_val, iter_xO_digits.
    replace (ex - ex') with (Zpos d) by lia. split; lia.
Qed.

Lemma binary_round_spec (M : positive) (E K : Z) :
  let F := fexp prec emax (Zpos (digits2_pos M) + E) in
  0 <= Z.min E F + K ->
  exists m e,
    binary_round prec emax false M E = rounded m e /\
    0 <= m /\
    Z.min E F <= e <= F + 1 /\
    (m - 1) * 2 ^ (e + K) <= Zpos M * 2 ^ (E + K) < (m + 1) * 2 ^ (e + K).
Proof.
  intros F HK. unfold binary_round. fold F.
  destruct (shl_align_spec M E F) as (Hez & Hmz & Hdz).
  destruct (shl_align M E F) as [mz ez]. cbn [fst snd] in *.
  destruct (binary_round_aux_spec mz ez K) as (m & e & Hr & Hm & He & Hv); [lia|].
  exists m, e. split; [exact Hr|]. split; [exact Hm|].
  rewrite Hdz in He. fold F in He. split; [lia|].
  replace (Zpos M * 2 ^ (E + K)) with (Zpos mz * 2 ^ (ez + K)); [exact Hv|].
  rewrite Hmz. replace (E + K) with ((E - ez) + (ez + K)) by lia.
  rewrite (pow2_split (E - ez) (ez + K)) by lia. ring.
Qed.

(** A mantissa that fits the format is kept as it is, moved to the
    canonical exponent. *)
Lemma binary_round_exact (M : positive) (E : Z) :
  let F := fexp prec emax (Zpos (digits2_pos M) + E) in
  F <= E -> F <= emax - prec ->
  exists mz,
    binary_round prec emax false M E = S754_finite false mz F /\
    Zpos mz = Zpos M * 2 ^ (E - F) /\
    valid_binary (S754_finite false mz F) = true.
Proof.
  intros F HF Hmax. unfold binary_round. fold F.
  destruct (shl_align_spec M E F) as (Hez & Hmz & Hdz).
  destruct (shl_align M E F) as [mz ez]. cbn [fst snd] in *.
  assert (Hz : ez = F) by lia. clear Hez. subst ez.
  exists mz. split; [|split; [exact Hmz|]].
  - unfold binary_round_aux, shr_fexp. cbn [Zdigits2].
    rewrite Hdz. fold F. rewrite Z.sub_diag. cbn [shr shr_record_of_loc shr_m
      loc_of_shr_record round_nearest_even Zdigits2].
    rewrite Hdz. fold F. rewrite Z.sub_diag. cbn [shr shr_record_of_loc shr_m].
    apply Z.leb_le in Hmax. rewrite Hmax. reflexivity.
  - cbn [SpecFloat.valid_binary]. unfold bounded, canonical_mantissa.
    rewrite Hdz. fold F. rewrite Z.eqb_refl. cbn. apply Z.leb_le. exact Hmax.
Qed.

(** What validity says about a finite float. *)
Lemma valid_finite (s : bool) (m : positive) (e : Z) :
  valid_binary (S754_finite s m e) = true ->
  -1074 <= e <= 971 /\ Zpos m < 2 ^ 53 /\
  (e = -1074 \/ 2 ^ 52 <= Zpos m).
Proof.
  cbn [SpecFloat.valid_binary]. unfold bounded, canonical_mantissa.
  intros H. apply andb_prop in H. destruct H as [Hc Hb].
  apply Z.eqb_eq in Hc. apply Z.leb_le in Hb.
  destruct (digits2_pos_bounds m) as [Hlo Hup].
  unfold fexp, SpecFloat.emin, prec, emax in *.
  assert (Hd : Zpos (digits2_pos m) <= 53) by lia.
  split; [lia|]. split.
  - apply Z.lt_le_trans with (1 := Hup). apply pow2_le. lia.
  - destruct (Z.eq_dec e (-1074)) as [|Hne]; [now left|right].
    assert (Zpos (digits2_pos m) = 53) by lia.
    replace 52 with (Zpos (digits2_pos m) - 1) by lia. exact Hlo.
Qed.

Lemma SFcompare_units (mx my : positive) (ex ey : Z) :
  valid_binary (S754_finite false mx ex) = true ->
  valid_binary (S754_finite false my ey) = true ->
  SFcompare (S754_finite false mx ex) (S754_finite false my ey)
  = Some (units mx ex ?= units my ey).
Proof.
  intros Vx Vy. apply valid_finite in Vx, Vy.
  destruct Vx as (Hex & Hmx & Hnx), Vy as (Hey & Hmy & Hny).
  unfold units. cbn [SFcompare]. f_equal.
  destruct (Z.compare_spec ex ey) as [->|Hlt|Hgt].
  - rewrite Pos.compare_cont_spec. cbn [Pos.switch_Eq].
    pose proof (pow2_pos (ey + 1074) ltac:(lia)).
    rewrite <- Zmult_compare_compat_r by lia.
    change (Zpos mx ?= Zpos my) with (mx ?= my)%positive.
    destruct (mx ?= my)%positive; reflexivity.
  - symmetry. apply Z.compare_lt_iff.
    destruct Hny as [->|Hny]; [lia|].
    replace (ey + 1074) with ((ey - ex) + (ex + 1074)) by lia.
    rewrite (pow2_split (ey - ex) (ex + 1074)) by lia.
    assert (0 < 2 ^ (ex + 1074)) by (apply pow2_pos; lia).
    assert (2 ^ 1 <= 2 ^ (ey - ex)) by (apply pow2_le; lia).
    change (2 ^ 1) with 2 in *. change (2 ^ 53) with (2 * 2 ^ 52) in *.
    assert (Zpos mx < Zpos my * 2 ^ (ey - ex)) by nia.
    rewrite Z.mul_assoc. apply Z.mul_lt_mono_pos_r; assumption.
  - symmetry. apply Z.compare_gt_iff.
    destruct Hnx as [->|Hnx]; [lia|].
    replace (ex + 1074) with ((ex - ey) + (ey + 1074)) by lia.
    rewrite (pow2_split (ex - ey) (ey + 1074)) by lia.
    assert (0 < 2 ^ (ey + 1074)) by (apply pow2_pos; lia).
    assert (2 ^ 1 <= 2 ^ (ex - ey)) by (apply pow2_le; lia).
    change (2 ^ 1) with 2 in *. change (2 ^ 53) with (2 * 2 ^ 52) in *.
    assert (Zpos my < Zpos mx * 2 ^ (ex - ey)) by nia.
    rewrite Z.mul_assoc. apply Z.mul_lt_mono_pos_r; assumption.
Qed.

Lemma units_pos (m : positive) (e : Z) : -1074 <= e -> 0 < units m e.
Proof.
  intros. unfold units. pose proof (pow2_pos (e + 1074) ltac:(lia)). nia.
Qed.

Lemma pow2_lt_inv (a b : Z) : 0 <= a -> 0 <= b -> 2 ^ a < 2 ^ b -> a < b.
Proof. intros Ha Hb H. apply (Z.pow_lt_mono_r_iff 2); lia. Qed.

Lemma ltb_units (x y : float) (mx my : positive) (ex ey : Z) :
  Prim2SF x = S754_finite false mx ex ->
  Prim2SF y = S754_finite false my ey ->
  (x <? y)%float = (units mx ex <? units my ey).
Proof.
  intros Hx Hy. rewrite ltb_spec, Hx, Hy. unfold SFltb.
  rewrite SFcompare_units.
  - unfold Z.ltb. destruct (units mx ex ?= units my ey); reflexivity.
  - rewrite <- Hx. apply Prim2SF_valid.
  - rewrite <- Hy. apply Prim2SF_valid.
Qed.

Lemma leb_units (x y : float) (mx my : positive) (ex ey : Z) :
  Prim2SF x = S754_finite false mx ex ->
  Prim2SF y = S754_finite false my ey ->
  (x <=? y)%float = (units mx ex <=? units my ey).
Proof.
  intros Hx Hy. rewrite leb_spec, Hx, Hy. unfold SFleb.
  rewrite SFcompare_units.
  - unfold Z.leb. destruct (units mx ex ?= units my ey); reflexivity.
  - rewrite <- Hx. apply Prim2SF_valid.
  - rewrite <- Hy. apply Prim2SF_valid.
Qed.

Lemma ltb_leb (x y : float) : (x <? y)%float = true -> (x <=? y)%float = true.
Proof.
  rewrite ltb_spec, leb_spec. unfold SFltb, SFleb.
  destruct (SFcompare (Prim2SF x) (Prim2SF y)) as [[| |]|]; easy.
Qed.

Lemma zero_cases (x : float) (b : bool) :
  Prim2SF x = S754_zero b -> x = 0%float \/ x = (-0)%float.
Proof.
  intros H. rewrite <- (SF2Prim_Prim2SF x), H.
  destruct b; [right|left]; reflexivity.
Qed.

(** A float between zero and a positive finite bound is a zero or a
    nonnegative finite number. *)
Lemma between_cases (x y : float) (my : positive) (ey : Z) :
  Prim2SF y = S754_finite false my ey ->
  (0 <=? x)%float = true -> (x <=? y)%float = true ->
  (exists b, Prim2SF x = S754_zero b) \/
  (exists m e, Prim2SF x = S754_finite false m e /\ units m e <= units my ey).
Proof.
  intros Hy H0 H1.
  destruct (Prim2SF x) as [b|b| |b m e] eqn:Hx.
  - left. now exists b.
  - exfalso. rewrite leb_spec, Hx in H0. rewrite leb_spec, Hx, Hy in H1.
    replace (Prim2SF 0) with (S754_zero false) in H0 by reflexivity.
    destruct b; discriminate.
  - exfalso. rewrite leb_spec, Hx in H0. destruct (Prim2SF 0); discriminate.
  - right. destruct b.
    + exfalso. rewrite leb_spec, Hx in H0.
      replace (Prim2SF 0) with (S754_zero false) in H0 by reflexivity. discriminate.
    + exists m, e. split; [reflexivity|].
      rewrite (leb_units x y m my e ey Hx Hy) in H1. now apply Z.leb_le.
Qed.

(** The sum of two positive finite floats: finite when the exact sum is
    below [2 ^ B], and within one unit of the last place of the exact sum. *)
Lemma SFadd_units (mx my : positive) (ex ey B : Z) :
  valid_binary (S754_finite false mx ex) = true ->
  valid_binary (S754_finite false my ey) = true ->
  B <= 1023 ->
  units mx ex + units my ey < 2 ^ (B + 1074) ->
  exists m e,
    SF64add (S754_finite false mx ex) (S754_finite false my ey) = S754_finite false m e /\
    e <= Z.max (B - 53) (-1074) + 1 /\
    units mx ex + units my ey - 2 ^ (e + 1074) < units m e
      <= units mx ex + units my ey + 2 ^ (e + 1074).
Proof.
  intros Vx Vy HB Hsum.
  apply valid_finite in Vx, Vy.
  destruct Vx as (Hex & _ & _), Vy as (Hey & _ & _).
  unfold SF64add. cbn [SFadd cond_Zopp].
  set (ez := Z.min ex ey).
  destruct (shl_align_spec mx ex ez) as (Hax & Hav & _).
  destruct (shl_align_spec my ey ez) as (Hbx & Hbv & _).
  destruct (shl_align mx ex ez) as [a ea], (shl_align my ey ez) as [b eb].
  cbn [fst snd] in *.
  change (Zpos a + Zpos b) with (Zpos (a + b)). cbn [binary_normalize].
  assert (Hea : ea = ez) by lia. assert (Heb : eb = ez) by lia.
  rewrite Hea in Hav. rewrite Heb in Hbv. clear Hax Hbx Hea Heb ea eb.
  assert (Hez : -1074 <= ez) by lia.
  assert (HS : Zpos (a + b) * 2 ^ (ez + 1074) = units mx ex + units my ey).
  { unfold units. rewrite Pos2Z.inj_add, Hav, Hbv.
    replace (ex + 1074) with ((ex - ez) + (ez + 1074)) by lia.
    replace (ey + 1074) with ((ey - ez) + (ez + 1074)) by lia.
    rewrite (pow2_split (ex - ez) (ez + 1074)), (pow2_split (ey - ez) (ez + 1074)) by lia.
    ring. }
  pose proof (units_pos mx ex ltac:(lia)) as Hux.
  pose proof (units_pos my ey ltac:(lia)) as Huy.
  set (S := (a + b)%positive) in *.
  set (F := fexp prec emax (Zpos (digits2_pos S) + ez)).
  assert (HF : -1074 <= F) by (unfold F, fexp, SpecFloat.emin, prec, emax; lia).
  destruct (binary_round_spec S ez 1074) as (m & e & Hr & Hm & He & Hv); [fold F; lia|].
  fold F in He. rewrite HS in Hv.
  destruct (digits2_pos_bounds S) as [Hlo _].
  assert (H2e : 0 < 2 ^ (ez + 1074)) by (apply pow2_pos; lia).
  assert (HdS : Zpos (digits2_pos S) + ez <= B).
  { assert (2 ^ (Zpos (digits2_pos S) - 1 + (ez + 1074)) < 2 ^ (B + 1074)).
    { rewrite (pow2_split (Zpos (digits2_pos S) - 1) (ez + 1074)) by lia.
      apply Z.le_lt_trans with (2 := Hsum). rewrite <- HS.
      apply Z.mul_le_mono_nonneg_r; lia. }
    destruct (Z_lt_le_dec (B + 1074) 0) as [Hneg|Hnn].
    - rewrite (Z.pow_neg_r 2 (B + 1074)) in Hsum by lia. lia.
    - apply pow2_lt_inv in H; lia. }
  assert (HeB : e <= Z.max (B - 53) (-1074) + 1).
  { unfold F, fexp, SpecFloat.emin, prec, emax in He. lia. }
  assert (Hsmall : 2 ^ (e + 1074) <= units mx ex + units my ey).
  { destruct (Z_le_gt_dec F (-1074)) as [Hsub|Hnorm].
    - apply Z.le_trans with (2 ^ 1); [apply pow2_le; lia|]. change (2 ^ 1) with 2. lia.
    - rewrite <- HS.
      apply Z.le_trans with (2 ^ (Zpos (digits2_pos S) - 1 + (ez + 1074))).
      + apply pow2_le. unfold F, fexp, SpecFloat.emin, prec, emax in *. lia.
      + rewrite (pow2_split (Zpos (digits2_pos S) - 1) (ez + 1074)) by lia.
        apply Z.mul_le_mono_nonneg_r; lia. }
  assert (H2 : 0 < 2 ^ (e + 1074)) by (apply pow2_pos; lia).
  destruct m as [|p|p]; [exfalso; nia| |lia].
  exists p, e. split; [|split; [exact HeB|]].
  - rewrite Hr. unfold rounded.
    replace (e <=? emax - prec) with true; [reflexivity|].
    symmetry. apply Z.leb_le. unfold emax, prec. lia.
  - unfold units at 3 4. nia.
Qed.

End Binary64.

Import Binary64.

(** ** Throttle: [forward] and [backward] *)

Section ThrottleFacts.

Local Open Scope Z_scope.

Lemma SF_two : Prim2SF 2 = S754_finite false 4503599627370496 (-51).
Proof. reflexivity. Qed.

Lemma SF_step : Prim2SF (0.2 * 1) = S754_finite false 7205759403792794 (-55).
Proof. reflexivity. Qed.

Lemma forward_le_2 (s : float) : (forward_speed 1 s <=? 2)%float = true.
Proof.
  unfold forward_speed.
  destruct (s + 0.2 * 1 <? 2)%float eqn:H.
  - now apply ltb_leb.
  - reflexivity.
Qed.

Lemma forward_step (k : Z) (s : float) :
  0 <= k -> at_least k s -> (s <=? 2)%float = true ->
  forward_speed 1 s = 2%float \/
  (at_least (k + 1) (forward_speed 1 s) /\ (forward_speed 1 s <? 2)%float = true).
Proof.
  intros Hk (m & e & Hs & Hlow) Hle.
  unfold forward_speed.
  destruct (s + 0.2 * 1 <? 2)%float eqn:Hn; [right|now left].
  split; [|exact Hn].
  rewrite (leb_units s 2 m _ e _ Hs SF_two) in Hle. apply Z.leb_le in Hle.
  assert (Vs : valid_binary (S754_finite false m e) = true)
    by (rewrite <- Hs; apply Prim2SF_valid).
  assert (Vc : valid_binary (S754_finite false 7205759403792794 (-55)) = true) by reflexivity.
  destruct (SFadd_units m 7205759403792794 e (-55) 2 Vs Vc ltac:(lia)) as (m' & e' & Ha & He' & Hv).
  { unfold units in *. change (-51 + 1074) with 1023 in Hle.
    change (-55 + 1074) with 1019. change (2 + 1074) with 1076.
    change (2 ^ 1076) with (2 ^ 57 * 2 ^ 1019).
    change (2 ^ 1023) with (2 ^ 4 * 2 ^ 1019) in Hle.
    pose proof (pow2_pos 1019 ltac:(lia)). lia. }
  exists m', e'. split.
  - rewrite add_spec, Hs, SF_step. exact Ha.
  - assert (2 ^ (e' + 1074) <= 2 ^ 1024).
    { apply valid_finite in Vs. apply pow2_le.
      assert (Ve' : valid_binary (S754_finite false m' e') = true).
      { rewrite <- Ha. rewrite <- SF_step, <- Hs, <- add_spec. apply Prim2SF_valid. }
      apply valid_finite in Ve'. lia. }
    unfold gain in *. lia.
Qed.

Lemma forward_fixed (j : nat) : Nat.iter j (forward_speed 1) 2%float = 2%float.
Proof.
  induction j as [|j IH]; [reflexivity|].
  rewrite Nat.iter_succ_r. exact IH.
Qed.

Lemma forward_iter (j : nat) (k : Z) (s : float) :
  0 <= k -> at_least k s -> (s <=? 2)%float = true ->
  Nat.iter j (forward_speed 1) s = 2%float \/
  (at_least (k + Z.of_nat j) (Nat.iter j (forward_speed 1) s) /\
   (Nat.iter j (forward_speed 1) s <=? 2)%float = true).
Proof.
  revert k s. induction j as [|j IH]; intros k s Hk Hat Hle.
  - right. cbn [Nat.iter nat_rect]. rewrite Z.add_0_r. now split.
  - rewrite Nat.iter_succ_r.
    destruct (forward_step k s Hk Hat Hle) as [->|[Hat' Hlt]].
    + left. apply forward_fixed.
    + destruct (IH (k + 1) (forward_speed 1 s) ltac:(lia) Hat' (ltb_leb _ _ Hlt))
        as [H|[H1 H2]].
      * now left.
      * right. split; [|exact H2].
        replace (k + Z.of_nat (S j)) with (k + 1 + Z.of_nat j) by lia. exact H1.
Qed.

Lemma at_least_11 (s : float) :
  at_least 11 s -> (s <=? 2)%float = true -> False.
Proof.
  intros (m & e & Hs & Hlow) Hle.
  rewrite (leb_units s 2 m _ e _ Hs SF_two) in Hle. apply Z.leb_le in Hle.
  unfold gain, units in *.
  change (-51 + 1074) with 1023 in Hle. change (-55 + 1074) with 1019 in Hlow.
  change (2 ^ 1023) with (2 ^ 4 * 2 ^ 1019) in Hle.
  change (2 ^ 1024) with (2 ^ 5 * 2 ^ 1019) in Hlow.
  pose proof (pow2_pos 1019 ltac:(lia)). lia.
Qed.

Lemma forward_reaches_2 (s : float) :
  (0 <=? s)%float = true -> (s <=? 2)%float = true ->
  Nat.iter 11 (forward_speed 1) s = 2%float.
Proof.
  intros H0 H2.
  destruct (between_cases s 2 _ _ SF_two H0 H2) as [[b Hz]|(m & e & Hs & _)].
  - destruct (zero_cases s b Hz) as [-> | ->]; vm_compute; reflexivity.
  - assert (Hat : at_least 0 s).
    { exists m, e. split; [exact Hs|].
      assert (V : valid_binary (S754_finite false m e) = true)
        by (rewrite <- Hs; apply Prim2SF_valid).
      apply valid_finite in V. pose proof (units_pos m e ltac:(lia)). lia. }
    destruct (forward_iter 11 0 s ltac:(lia) Hat H2) as [H|[H1 H3]]; [exact H|].
    exfalso. exact (at_least_11 _ H1 H3).
Qed.

End ThrottleFacts.

Lemma forward_iter_speed (n : nat) (d : Drone) :
  speed (Nat.iter n (forward 1) d) = Nat.iter n (forward_speed 1) (speed d).
Proof.
  induction n as [|n IH]; [reflexivity|].
  rewrite !Nat.iter_succ. unfold forward at 1. cbn [speed set_speed].
  now rewrite IH.
Qed.

(** C5: [forward] never leaves the speed above 2, and from any speed
    between 0 and 2 repeated [forward] calls arrive at exactly 2, within
    eleven calls, and stay there: no call overshoots. *)
Theorem forward_caps_at_2 (d : Drone) :
  (0 <=? speed d) = true -> (speed d <=? 2) = true ->
  (speed (forward 1 d) <=? 2) = true /\
  (forall n, (speed (Nat.iter n (forward 1) d) <=? 2) = true) /\
  (forall n, (11 <= n)%nat -> speed (Nat.iter n (forward 1) d) = 2).
Proof.
  intros H0 H2. split; [|split].
  - apply forward_le_2.
  - intros [|n]; [exact H2|].
    cbn [Nat.iter nat_rect]. apply forward_le_2.
  - intros n Hn. rewrite forward_iter_speed.
    replace n with ((n - 11) + 11)%nat by lia.
    rewrite Nat.iter_add, (forward_reaches_2 _ H0 H2).
    apply forward_fixed.
Qed.

(** The other half of the throttle, for the record: [backward] always
    leaves a positive speed, and 0.2 is where it stays once it is there. *)
Lemma backward_positive (s : float) : (0 <? backward_speed 1 s) = true.
Proof.
  unfold backward_speed. destruct (0 <? s - 0.2 * 1) eqn:H; [exact H|reflexivity].
Qed.

Lemma backward_fixed : backward_speed 1 0.2 = 0.2.
Proof. reflexivity. Qed.

(** C5 at the speed of a fresh drone. *)
Lemma forward_caps_witness :
  (speed (forward 1 (init 100 100 white black three_lidars)) <=? 2) = true /\
  (forall n, (speed (Nat.iter n (forward 1) (init 100 100 white black three_lidars)) <=? 2)
             = true) /\
  (forall n, (11 <= n)%nat ->
             speed (Nat.iter n (forward 1) (init 100 100 white black three_lidars)) = 2).
Proof.
  apply (forward_caps_at_2 (init 100 100 white black three_lidars)); reflexivity.
Defined.

(** C1, at the input where the code leaves the claim: eleven throttle-up
    calls and nine throttle-down calls from the initial state bring the
    speed to 0.20000000000000029, inside [0.2, 2]; the next throttle-down
    call computes a new speed of about 2.8e-16, finds it positive and keeps
    it, far below 0.2.  The call after that one stores 0.2, and there the
    speed stays. *)
Theorem backward_sinks_below_floor :
  speed_after (up_then_down 11 9) = Some 0.20000000000000029 /\
  (0.2 <=? 0.20000000000000029) = true /\
  speed_after (up_then_down 11 10) = Some 2.7755575615628914e-16 /\
  backward_speed 1 0.20000000000000029 = 2.7755575615628914e-16 /\
  (2.7755575615628914e-16 <? 0.2) = true /\
  speed_after (up_then_down 11 11) = Some 0.2 /\
  speed_after (up_then_down 11 12) = Some 0.2.
Proof. repeat split; vm_compute; reflexivity. Qed.

(** ** Facts about the monad and the sampling methods *)

Ltac run_monad :=
  unfold bind, ret, lift, get_self, update, draw_bounds; cbn [self game_display].

Lemma color_eqb_refl (c : Color) : color_eqb c c = true.
Proof.
  destruct c as [[r g] b]. unfold color_eqb.
  now rewrite !Z.eqb_refl.
Qed.

Section SamplingFacts.

Variables cos sin : float -> float.
Variable lidar_check_bounds : Lidar -> Surface -> option (Z * Z).

Lemma lidar_loop (maze : Surface) (ls : list Lidar) (w : World) :
  for_each ls (fun lidar =>
    match lidar_check_bounds lidar maze with
    | Some lidar_info => draw_bounds lidar_info
    | None => ret tt
    end) w
  = Some (tt, mkWorld (self w) (sightings lidar_check_bounds maze ls (game_display w))).
Proof.
  revert w. induction ls as [|l ls IH]; intros [d g]; cbn.
  - reflexivity.
  - unfold bind at 1. destruct (lidar_check_bounds l maze) as [p|]; cbn.
    + unfold draw_bounds. cbn. now rewrite IH.
    + unfold ret at 1. now rewrite IH.
Qed.

Lemma check_bounds_eq (maze : Surface) (w : World) :
  check_bounds lidar_check_bounds maze w =
  match own_pixel maze (self w) with
  | Some c =>
      Some (false,
            mkWorld (if color_eqb c (bounds_color (self w))
                     then set_error_case (error_case (self w) + 1) (self w)
                     else self w)
                    (sightings lidar_check_bounds maze (lidars (self w)) (game_display w)))
  | None => None
  end.
Proof.
  unfold check_bounds, own_pixel.
  unfold bind at 1. unfold get_self at 1.
  unfold bind at 1. rewrite lidar_loop.
  run_monad.
  destruct (py_int (x_position (self w))) as [x|]; [|reflexivity].
  destruct (py_int (y_position (self w))) as [y|]; [|reflexivity].
  destruct (get_at maze (x, y)) as [c|]; [|reflexivity].
  destruct (color_eqb c (bounds_color (self w))); reflexivity.
Qed.

Lemma get_position_eq (w : World) :
  get_position w = option_map (fun p => (p, w)) (rounded_position (self w)).
Proof.
  unfold get_position, rounded_position. run_monad.
  destruct (py_round (x_position (self w))); [|reflexivity].
  destruct (py_round (y_position (self w))); reflexivity.
Qed.

Lemma moved_lidars_eq (ls : list Lidar) (w : World) (p : Z * Z) :
  rounded_position (self w) = Some p ->
  moved_lidars ls w = Some (map (lidar_move p) ls, w).
Proof.
  intros Hp. induction ls as [|l ls IH]; cbn.
  - reflexivity.
  - unfold bind at 1. rewrite get_position_eq, Hp. cbn.
    unfold bind at 1. rewrite IH. reflexivity.
Qed.

Lemma moved_lidars_none (ls : list Lidar) (w : World) :
  rounded_position (self w) = None ->
  moved_lidars ls w = None \/ moved_lidars ls w = Some ([], w).
Proof.
  intros Hp. destruct ls as [|l ls]; cbn.
  - now right.
  - left. unfold bind at 1. now rewrite get_position_eq, Hp.
Qed.

Lemma is_crashed_eq (maze : Surface) (w : World) :
  is_crashed maze w =
  match rounded_pixel maze (self w) with
  | Some c =>
      if color_eqb c (bounds_color (self w))
      then Some (true, mkWorld (set_error_case (error_case (self w) + 1) (self w))
                               (game_display w))
      else Some (false, w)
  | None => None
  end.
Proof.
  unfold is_crashed, rounded_pixel.
  unfold bind at 1. rewrite get_position_eq. unfold rounded_position.
  destruct (py_round (x_position (self w))) as [x|]; [|reflexivity].
  destruct (py_round (y_position (self w))) as [y|]; [|reflexivity].
  cbn. run_monad.
  destruct (get_at maze (x, y)) as [c|]; [|reflexivity].
  destruct (color_eqb c (bounds_color (self w))); reflexivity.
Qed.

(** [move] in one equation: the drone advances, every lidar is mounted at
    the new rounded position, and the pixel there is sampled once. *)
Lemma move_eq (maze : Surface) (w : World) :
  move cos sin maze w =
  let d := advanced cos sin (self w) in
  match rounded_position d with
  | Some p =>
      match get_at maze p with
      | Some c =>
          let d' := set_lidars (map (lidar_move p) (lidars d)) d in
          Some (tt, mkWorld (if color_eqb c (bounds_color d)
                             then set_error_case (error_case d + 1) d'
                             else d')
                            (game_display w))
      | None => None
      end
  | None => None
  end.
Proof.
  unfold move. cbv zeta.
  unfold bind at 1. unfold update at 1.
  unfold bind at 1. unfold update at 1. cbn [self game_display].
  fold (advanced cos sin (self w)).
  set (d := advanced cos sin (self w)).
  unfold bind at 1. unfold change_lidars_positions.
  unfold bind at 1. unfold get_self at 1. cbn [self].
  unfold bind at 1.
  destruct (rounded_position d) as [p|] eqn:Hp.
  - rewrite (moved_lidars_eq (lidars d) (mkWorld d (game_display w)) p Hp).
    unfold update at 1. cbn [self game_display].
    unfold bind at 1. rewrite is_crashed_eq. cbn [self game_display].
    unfold rounded_pixel, rounded_position in *. cbn [x_position y_position set_lidars].
    destruct (py_round (x_position d)) as [x|]; [|discriminate].
    destruct (py_round (y_position d)) as [y|]; [|discriminate].
    injection Hp as <-.
    destruct (get_at maze (x, y)) as [c|]; [|reflexivity].
    cbn [bounds_color set_lidars].
    destruct (color_eqb c (bounds_color d)); reflexivity.
  - destruct (moved_lidars_none (lidars d) (mkWorld d (game_display w)) Hp) as [E|E];
      rewrite E; [reflexivity|].
    unfold update at 1. cbn [self game_display].
    unfold bind at 1. rewrite is_crashed_eq. cbn [self game_display].
    unfold rounded_pixel, rounded_position in *. cbn [x_position y_position set_lidars].
    destruct (py_round (x_position d)) as [x|]; [|reflexivity].
    destruct (py_round (y_position d)) as [y|]; [discriminate|reflexivity].
Qed.

(** C10: for every drone and every raster [check_bounds] answers [False]:
    whenever it returns, the answer is [False]; and it does return, with
    [False], whenever the pixel under the drone can be sampled, also when
    that pixel has the bounds colour and the crash count goes up by one. *)
Theorem check_bounds_returns_false (maze : Surface) (w : World) :
  (forall b w', check_bounds lidar_check_bounds maze w = Some (b, w') -> b = false) /\
  (forall c, own_pixel maze (self w) = Some c ->
     exists w', check_bounds lidar_check_bounds maze w = Some (false, w') /\
                error_case (self w') = crash_after c (self w)).
Proof.
  rewrite check_bounds_eq. split.
  - intros b w' H. destruct (own_pixel maze (self w)); [|discriminate].
    now injection H as <- _.
  - intros c ->. eexists. split; [reflexivity|].
    unfold crash_after. cbn [self].
    destruct (color_eqb c (bounds_color (self w))); cbn; lia.
Qed.

(** C8: the crash count moves only with the colour sampled under the drone
    itself.  After [check_bounds] it is the old count plus one exactly when
    the pixel at [(int(x), int(y))] has the bounds colour; after [move] it
    is the old count plus one exactly when the pixel at the new rounded
    position has it.  Neither right-hand side mentions the lidars or what
    they report, which only reaches the screen. *)
Theorem crash_count_from_own_pixel_only (maze : Surface) (w : World) :
  option_map (fun r => error_case (self (snd r))) (check_bounds lidar_check_bounds maze w)
    = option_map (fun c => crash_after c (self w)) (own_pixel maze (self w)) /\
  option_map (fun r => game_display (snd r)) (check_bounds lidar_check_bounds maze w)
    = option_map (fun _ => sightings lidar_check_bounds maze (lidars (self w)) (game_display w))
        (own_pixel maze (self w)) /\
  option_map (fun r => error_case (self (snd r))) (move cos sin maze w)
    = option_map (fun c => crash_after c (self w))
        (rounded_pixel maze (advanced cos sin (self w))).
Proof.
  rewrite check_bounds_eq, move_eq. cbv zeta. unfold crash_after.
  split; [|split].
  - destruct (own_pixel maze (self w)) as [c|]; [|reflexivity]. cbn.
    destruct (color_eqb c (bounds_color (self w))); cbn; f_equal; lia.
  - destruct (own_pixel maze (self w)) as [c|]; reflexivity.
  - unfold rounded_pixel, rounded_position.
    destruct (py_round (x_position (advanced cos sin (self w)))) as [x|]; [|reflexivity].
    destruct (py_round (y_position (advanced cos sin (self w)))) as [y|]; [|reflexivity].
    destruct (get_at maze (x, y)) as [c|]; [|reflexivity]. cbn.
    destruct (color_eqb c (bounds_color (self w))); cbn; f_equal; lia.
Qed.

Lemma rotate_yaw_total (direction speed yaw : float) :
  exists y, rotate_yaw direction speed yaw = Some y.
Proof.
  unfold rotate_yaw.
  destruct (360 <=? yaw + direction * speed).
  - unfold py_mod. replace (360 =? 0) with false by reflexivity.
    destruct (fmod (yaw + direction * speed) 360 =? 0); [eauto|].
    destruct (xorb _ _); eauto.
  - destruct (yaw + direction * speed <? 0); eauto.
Qed.

(** [rotate] in one equation. *)
Lemma rotate_eq (maze : Surface) (direction : float) (w : World) :
  rotate lidar_check_bounds maze direction w =
  let d := self w in
  match rotate_yaw direction (speed d) (yaw d) with
  | Some y =>
      let d1 := set_lidars (map (add_angle (direction * speed d)) (lidars d)) (set_yaw y d) in
      match own_pixel maze d with
      | Some c =>
          Some (tt, mkWorld (if color_eqb c (bounds_color d)
                             then set_error_case (error_case d + 1) d1
                             else d1)
                            (sightings lidar_check_bounds maze (lidars d1) (game_display w)))
      | None => None
      end
  | None => None
  end.
Proof.
  unfold rotate. cbv zeta.
  unfold bind at 1. unfold get_self at 1.
  unfold bind at 1. unfold lift at 1.
  destruct (rotate_yaw direction (speed (self w)) (yaw (self w))) as [y|]; [|reflexivity].
  unfold bind at 1. unfold update at 1.
  unfold bind at 1. unfold update at 1. cbn [self game_display].
  unfold bind at 1. rewrite check_bounds_eq. cbn [self game_display].
  change (own_pixel maze _) with (own_pixel maze (self w)).
  destruct (own_pixel maze (self w)) as [c|]; [|reflexivity].
  cbn [set_yaw set_lidars speed bounds_color error_case lidars].
  destruct (color_eqb c (bounds_color (self w))); reflexivity.
Qed.

Lemma angle_after_add (ds : list float) (l : Lidar) (delta : float) :
  angle_after ds (relative_angle (add_angle delta l))
  = angle_after (delta :: ds) (relative_angle l).
Proof. reflexivity. Qed.

(** The yaw assignment of [rotate] is the spec's normalisation of the raw
    sum [yaw + direction * speed]. *)
Lemma rotate_yaw_normalized (direction speed yaw : float) :
  rotate_yaw direction speed yaw = normalized (yaw + direction * speed).
Proof. reflexivity. Qed.

(** While no raw sum leaves [0, 360), the yaw is the plain sum of the
    deltas, added in the order of the calls. *)
Lemma yaw_after_unwrapped (ds : list float) (yaw : float) :
  unwrapped ds yaw = true -> yaw_after ds yaw = Some (angle_after ds yaw).
Proof.
  revert yaw. induction ds as [|delta ds IH]; intros yaw H; [reflexivity|].
  cbn [unwrapped] in H. cbv zeta in H.
  apply andb_prop in H. destruct H as [H Hrest].
  apply andb_prop in H. destruct H as [H360 H0].
  apply negb_true_iff in H360, H0.
  cbn [yaw_after]. unfold normalized. rewrite H360, H0.
  exact (IH _ Hrest).
Qed.

(** C7: every [rotate] call adds the same delta, [direction * speed], to
    the yaw (before it is normalised) and to the relative angle of every
    lidar; the lidars of the list are distinct objects, as the drone owns
    them exclusively.  For a drone standing on the raster, any sequence of
    rotate calls returns and leaves the speed as it was.  With [deltas]
    the list of products [direction * speed] of the calls: the yaw is the
    old yaw with these deltas added one by one, each raw sum normalised
    into [0, 360) before the next is added; every lidar keeps its place,
    mount and range and has the same deltas added one by one to its
    relative angle; and as long as no raw sum leaves [0, 360) the yaw is
    what a relative angle that started at the old yaw would be, the plain
    sum of the same deltas. *)
Theorem rotate_same_delta_for_yaw_and_lidars (maze : Surface) (directions : list float)
    (w : World) (c : Color) :
  own_pixel maze (self w) = Some c ->
  exists w',
    rotate_all lidar_check_bounds maze directions w = Some (tt, w') /\
    speed (self w') = speed (self w) /\
    yaw_after (deltas directions (speed (self w))) (yaw (self w)) = Some (yaw (self w')) /\
    lidars (self w') =
      map (fun l => mkLidar (angle_after (deltas directions (speed (self w)))
                               (relative_angle l))
                            (mount_position l) (max_range l))
          (lidars (self w)) /\
    (unwrapped (deltas directions (speed (self w))) (yaw (self w)) = true ->
     yaw (self w') = angle_after (deltas directions (speed (self w))) (yaw (self w))).
Proof.
  intros Hc.
  assert (Hmain : exists w',
    rotate_all lidar_check_bounds maze directions w = Some (tt, w') /\
    speed (self w') = speed (self w) /\
    yaw_after (deltas directions (speed (self w))) (yaw (self w)) = Some (yaw (self w')) /\
    lidars (self w') =
      map (fun l => mkLidar (angle_after (deltas directions (speed (self w)))
                               (relative_angle l))
                            (mount_position l) (max_range l))
          (lidars (self w))).
  { revert w Hc. induction directions as [|d ds IH]; intros w Hc.
    - exists w. cbn. repeat split.
      rewrite <- (map_id (lidars (self w))) at 1.
      apply map_ext. now intros [a m r].
    - cbn [rotate_all]. unfold bind at 1. rewrite rotate_eq. cbv zeta.
      destruct (rotate_yaw_total d (speed (self w)) (yaw (self w))) as [y Hy].
      rewrite Hy, Hc.
      match goal with |- context [rotate_all _ _ ds ?w1] => set (w1' := w1) end.
      assert (Hc1 : own_pixel maze (self w1') = Some c).
      { subst w1'. cbn [self]. destruct (color_eqb c (bounds_color (self w))); exact Hc. }
      assert (Hs : speed (self w1') = speed (self w)).
      { subst w1'. cbn [self]. destruct (color_eqb c (bounds_color (self w))); reflexivity. }
      assert (Hyaw : yaw (self w1') = y).
      { subst w1'. cbn [self]. destruct (color_eqb c (bounds_color (self w))); reflexivity. }
      assert (Hl : lidars (self w1') = map (add_angle (d * speed (self w))) (lidars (self w))).
      { subst w1'. cbn [self]. destruct (color_eqb c (bounds_color (self w))); reflexivity. }
      destruct (IH w1' Hc1) as (w' & Hrun & Hspeed & Hyaw' & Hlid).
      exists w'. rewrite Hrun. split; [reflexivity|].
      split; [congruence|].
      split.
      + cbn [deltas map yaw_after]. rewrite <- rotate_yaw_normalized, Hy.
        rewrite Hs, Hyaw in Hyaw'. exact Hyaw'.
      + rewrite Hlid, Hl, map_map, Hs. apply map_ext. intros l.
        rewrite angle_after_add. reflexivity. }
  destruct Hmain as (w' & Hrun & Hspeed & Hyaw & Hlid).
  exists w'. repeat (split; [assumption|]).
  intros Hu. apply yaw_after_unwrapped in Hu. rewrite Hu in Hyaw.
  injection Hyaw as ->. reflexivity.
Qed.

(** C6: on a raster whose every pixel but one has the bounds colour, a
    [move] that ends, rounded, on a pixel of the raster other than that one
    returns and raises the crash count by exactly one. *)
Theorem move_off_start_pixel_counts_one_crash (maze : Surface) (w : World)
    (start p : Z * Z) :
  (forall q, in_surface maze q = true -> q <> start ->
             pixels maze (fst q) (snd q) = bounds_color (self w)) ->
  rounded_position (advanced cos sin (self w)) = Some p ->
  in_surface maze p = true ->
  p <> start ->
  exists w',
    move cos sin maze w = Some (tt, w') /\
    error_case (self w') = (error_case (self w) + 1)%Z.
Proof.
  intros Hwalls Hp Hin Hne.
  rewrite move_eq. cbv zeta. rewrite Hp.
  unfold get_at. rewrite Hin, (Hwalls p Hin Hne).
  change (bounds_color (advanced cos sin (self w))) with (bounds_color (self w)).
  rewrite color_eqb_refl. eexists. split; reflexivity.
Qed.

End SamplingFacts.

(** C6 for a drone that leaves the only white pixel of a black raster. *)
Lemma move_off_start_pixel_witness :
  exists w',
    move cos_axis sin_axis (walls_except 20 20 (3, 3)%Z) walled_in = Some (tt, w') /\
    error_case (self w') = (error_case (self walled_in) + 1)%Z.
Proof.
  apply (move_off_start_pixel_counts_one_crash cos_axis sin_axis
           (walls_except 20 20 (3, 3)%Z) walled_in (3, 3)%Z (6, 3)%Z).
  - intros [x y] _ Hne. cbn.
    destruct (Z.eqb_spec x 3) as [->|]; [|reflexivity].
    destruct (Z.eqb_spec y 3) as [->|]; [|reflexivity].
    now contradiction Hne.
  - vm_compute. reflexivity.
  - reflexivity.
  - discriminate.
Defined.

(** C7 for four rotate-right calls at speed 2. *)
Lemma rotate_same_delta_witness :
  exists w',
    rotate_all blind (field 400 200) [1; 1; 1; 1] spinning = Some (tt, w') /\
    speed (self w') = speed (self spinning) /\
    yaw_after (deltas [1; 1; 1; 1] (speed (self spinning))) (yaw (self spinning))
      = Some (yaw (self w')) /\
    lidars (self w') =
      map (fun l => mkLidar (angle_after (deltas [1; 1; 1; 1] (speed (self spinning)))
                               (relative_angle l))
                            (mount_position l) (max_range l))
          (lidars (self spinning)) /\
    (unwrapped (deltas [1; 1; 1; 1] (speed (self spinning))) (yaw (self spinning)) = true ->
     yaw (self w')
     = angle_after (deltas [1; 1; 1; 1] (speed (self spinning))) (yaw (self spinning))).
Proof.
  apply (rotate_same_delta_for_yaw_and_lidars blind (field 400 200) [1; 1; 1; 1]
           spinning white).
  vm_compute. reflexivity.
Defined.

Example rotate_four_times :
  option_map (fun r => (yaw (self (snd r)), map relative_angle (lidars (self (snd r)))))
    (rotate_all blind (field 400 200) [1; 1; 1; 1] spinning)
  = Some (8, [8; 38; -22]).
Proof. vm_compute. reflexivity. Qed.

(** ** Heading *)

(** C4, at two inputs where the code leaves the claim.  In both a
    rotate-left call from a yaw just above zero computes a tiny negative
    yaw, adds 360 to it, and the sum rounds to 360 itself, outside
    [0, 360).  In the first run the arrow keys alone lead there: eleven
    throttle-up and ten throttle-down calls leave a speed of about 2.8e-16,
    and one rotate-left follows.  In the second every speed is at least 0.2:
    a rotate-right at the speed three [forward] calls give, then a
    rotate-left at the speed reached on the way back down from 2, which is
    larger by about 2.2e-16. *)
Theorem rotate_left_reaches_yaw_360 :
  yaw_after_keys (up_then_down 11 10) = Some 0 /\
  yaw_after_keys (up_then_down 11 10 ++ [left_key]) = Some 360 /\
  rotate_yaw (-1) 2.7755575615628914e-16 0 = Some 360 /\
  speed_and_yaw_after (repeat Forward 3 ++ [Rotate 1])
    = Some (0.60000000000000009, 0.60000000000000009) /\
  speed_and_yaw_after (repeat Forward 3 ++ [Rotate 1] ++ repeat Forward 8 ++ repeat Backward 7)
    = Some (0.60000000000000031, 0.60000000000000009) /\
  speed_and_yaw_after (repeat Forward 3 ++ [Rotate 1] ++ repeat Forward 8 ++ repeat Backward 7
                         ++ [Rotate (-1)])
    = Some (0.60000000000000031, 360) /\
  (360 <? 360) = false.
Proof. repeat split; vm_compute; reflexivity. Qed.

(** ** The flight-time budget *)

Lemma eqb_zero_cases (t : float) : (t =? 0) = true -> t = 0 \/ t = -0.
Proof.
  rewrite FloatAxioms.eqb_spec. intros H.
  rewrite <- (SF2Prim_Prim2SF t).
  replace (Prim2SF 0) with (S754_zero false) in H by reflexivity.
  destruct (Prim2SF t) as [s|s| |s m e]; try (destruct s; discriminate H).
  - destruct s; [right|left]; reflexivity.
  - discriminate H.
Qed.

Section BudgetFacts.

Variables cos sin : float -> float.
Variable lidar_check_bounds : Lidar -> Surface -> option (Z * Z).

Let handle := handle_keys cos sin lidar_check_bounds.

Lemma check_bounds_time (maze : Surface) (w w' : World) (b : bool) :
  check_bounds lidar_check_bounds maze w = Some (b, w') ->
  time_in_air (self w') = time_in_air (self w).
Proof.
  rewrite check_bounds_eq.
  destruct (own_pixel maze (self w)) as [c|]; [|discriminate].
  intros H. injection H as _ <-. cbn [self].
  destruct (color_eqb c (bounds_color (self w))); reflexivity.
Qed.

Lemma rotate_time (maze : Surface) (direction : float) (w w' : World) (u : unit) :
  rotate lidar_check_bounds maze direction w = Some (u, w') ->
  time_in_air (self w') = time_in_air (self w).
Proof.
  rewrite rotate_eq. cbv zeta.
  destruct (rotate_yaw direction (speed (self w)) (yaw (self w))); [|discriminate].
  destruct (own_pixel maze (self w)) as [c|]; [|discriminate].
  intros H. injection H as _ <-. cbn [self].
  destruct (color_eqb c (bounds_color (self w))); reflexivity.
Qed.

Lemma move_time (maze : Surface) (w w' : World) (u : unit) :
  move cos sin maze w = Some (u, w') ->
  time_in_air (self w') = time_in_air (self w).
Proof.
  rewrite move_eq. cbv zeta.
  destruct (rounded_position (advanced cos sin (self w))) as [p|]; [|discriminate].
  destruct (get_at maze p) as [c|]; [|discriminate].
  intros H. injection H as _ <-. cbn [self].
  destruct (color_eqb c _); reflexivity.
Qed.

(** Whatever the keys, a [handle_keys] call that returns has applied the
    budget assignment once and nothing else to the budget. *)
Lemma handle_keys_time (maze : Surface) (key : Keys) (w w' : World) (b : bool) :
  handle maze key w = Some (b, w') ->
  time_in_air (self w') = tick (time_in_air (self w)).
Proof.
  unfold handle, handle_keys.
  unfold bind at 1. unfold get_self at 1.
  unfold bind at 1.
  set (w0 := match (if is_land (state (self w)) then update (set_state (Member TAKE_OFF))
                    else ret tt) w with Some (_, x) => x | None => w end).
  assert (Hw0 : (if is_land (state (self w)) then update (set_state (Member TAKE_OFF))
                 else ret tt) w = Some (tt, w0) /\ time_in_air (self w0) = time_in_air (self w)).
  { subst w0. destruct (is_land (state (self w))); cbn; split; reflexivity. }
  destruct Hw0 as [-> Ht0].
  unfold bind at 1. unfold update at 1.
  unfold bind at 1. unfold get_self at 1. cbn [self game_display time_in_air set_time_in_air].
  rewrite Ht0.
  destruct (tick (time_in_air (self w)) =? 0).
  - cbn. intros H. injection H as _ <-. reflexivity.
  - unfold bind at 1.
    match goal with |- context [check_bounds _ _ ?x] =>
      destruct (check_bounds lidar_check_bounds maze x) as [[b1 w1]|] eqn:Hcb; [|discriminate]
    end.
    apply check_bounds_time in Hcb. cbn [self time_in_air set_time_in_air] in Hcb.
    destruct (K_LEFT key).
    { unfold bind at 1.
      destruct (rotate lidar_check_bounds maze (-1) w1) as [[u w2]|] eqn:Hr; [|discriminate].
      apply rotate_time in Hr. unfold ret. intros H. injection H as _ <-. congruence. }
    destruct (K_RIGHT key).
    { unfold bind at 1.
      destruct (rotate lidar_check_bounds maze 1 w1) as [[u w2]|] eqn:Hr; [|discriminate].
      apply rotate_time in Hr. unfold ret. intros H. injection H as _ <-. congruence. }
    destruct (K_UP key).
    { unfold bind at 1. unfold update at 1. unfold bind at 1.
      match goal with |- context [move _ _ _ ?x] =>
        destruct (move cos sin maze x) as [[u w2]|] eqn:Hm; [|discriminate]
      end.
      apply move_time in Hm. cbn [self time_in_air forward backward set_speed] in Hm. unfold ret. intros H. injection H as _ <-. congruence. }
    destruct (K_DOWN key).
    { unfold bind at 1. unfold update at 1. unfold bind at 1.
      match goal with |- context [move _ _ _ ?x] =>
        destruct (move cos sin maze x) as [[u w2]|] eqn:Hm; [|discriminate]
      end.
      apply move_time in Hm. cbn [self time_in_air forward backward set_speed] in Hm. unfold ret. intros H. injection H as _ <-. congruence. }
    unfold ret. intros H. injection H as _ <-. congruence.
Qed.

Lemma run_time (maze : Surface) (keys : list Keys) (w w' : World) (bs : list bool) :
  run cos sin lidar_check_bounds maze keys w = Some (bs, w') ->
  time_in_air (self w') = Nat.iter (List.length keys) tick (time_in_air (self w))
  /\ List.length bs = List.length keys.
Proof.
  revert w w' bs. induction keys as [|k keys IH]; intros w w' bs.
  - cbn. intros H. injection H as <- <-. split; reflexivity.
  - cbn [run]. unfold bind at 1.
    destruct (handle_keys cos sin lidar_check_bounds maze k w) as [[b w1]|] eqn:Hk;
      [|discriminate].
    apply handle_keys_time in Hk.
    unfold bind at 1.
    destruct (run cos sin lidar_check_bounds maze keys w1) as [[bs1 w2]|] eqn:Hr;
      [|discriminate].
    apply IH in Hr. destruct Hr as [Hr Hlen].
    unfold ret. intros H. injection H as <- <-. split.
    + rewrite Hr, Hk. cbn [List.length]. now rewrite Nat.iter_succ_r.
    + cbn [List.length]. now rewrite Hlen.
Qed.

(** With the budget at zero a call leaves it at zero, sets [state] to
    [LAND] and answers [False] before any key is read. *)
Lemma handle_keys_exhausted (maze : Surface) (key : Keys) (w : World) :
  (time_in_air (self w) =? 0) = true ->
  handle maze key w
  = Some (false, mkWorld (set_state (Member LAND) (set_time_in_air 0 (self w)))
                         (game_display w)).
Proof.
  intros Hz. apply eqb_zero_cases in Hz.
  destruct w as [d g]. cbn [self] in Hz.
  destruct d as [st y m sp t e sc r x yp ls col bc]. cbn [time_in_air] in Hz.
  unfold handle, handle_keys.
  destruct Hz as [-> | ->]; destruct st as [|[| |]]; reflexivity.
Qed.

(** C2, as the code has it: with the budget at zero, a call answers [False]
    and leaves [state] at [LAND], whatever the keys, and the call after it
    does the same; it sets [state] to [TAKE_OFF] on entry, finds the budget
    still at zero, sets [state] back to [LAND] and answers [False] without
    reading its keys.  The drone is otherwise left as it was; the separate
    field [mode] is never written. *)
Theorem exhausted_budget_discards_every_input (maze : Surface) (k1 k2 : Keys) (w : World) :
  (time_in_air (self w) =? 0) = true ->
  exists w1,
    handle maze k1 w = Some (false, w1) /\
    state (self w1) = Member LAND /\
    handle maze k2 w1 = Some (false, w1) /\
    self w1 = set_state (Member LAND) (set_time_in_air 0 (self w)) /\
    mode (self w1) = mode (self w).
Proof.
  intros Hz.
  exists (mkWorld (set_state (Member LAND) (set_time_in_air 0 (self w))) (game_display w)).
  split; [exact (handle_keys_exhausted maze k1 w Hz)|].
  split; [reflexivity|].
  split; [|split; reflexivity].
  rewrite handle_keys_exhausted by reflexivity. reflexivity.
Qed.

(** C3, at the input where the code leaves the claim: the budget after
    7500 calls from the initial 300 seconds, whatever the keys and the
    raster, is a negative number.  Each of the 7500 subtractions of [1 / 25]
    is rounded, the sum of the rounded steps passes zero without meeting it,
    and the test [time_in_air == 0] lets that call through. *)
Theorem budget_negative_after_7500_calls (maze : Surface) (keys : list Keys)
    (w w' : World) (bs : list bool) :
  time_in_air (self w) = MAX_FLIGHT_TIME ->
  List.length keys = (300 * 25)%nat ->
  run cos sin lidar_check_bounds maze keys w = Some (bs, w') ->
  time_in_air (self w') = -5.8267973779280169e-12 /\
  (time_in_air (self w') <? 0) = true.
Proof.
  intros Ht Hlen Hrun.
  apply run_time in Hrun. destruct Hrun as [-> _].
  rewrite Ht, Hlen.
  split; vm_compute; reflexivity.
Qed.

End BudgetFacts.

(** C2 as stated fails: the second call after exhaustion is not processed.
    A rotate-left intent, which would answer [True], answers [False], and
    [state] ends at [LAND], not at [TAKE_OFF]. *)
Lemma revival_is_undone_in_the_same_call :
  exists w1,
    handle_keys cos_axis sin_axis blind (field 400 200) left_key exhausted = Some (false, w1) /\
    state (self w1) = Member LAND /\
    ~ (exists w2, handle_keys cos_axis sin_axis blind (field 400 200) left_key w1
                  = Some (true, w2)) /\
    option_map (fun r => state (self (snd r)))
      (handle_keys cos_axis sin_axis blind (field 400 200) left_key w1) = Some (Member LAND).
Proof.
  eexists. split; [vm_compute; reflexivity|].
  split; [reflexivity|]. split.
  - intros [w2 H]. vm_compute in H. discriminate H.
  - vm_compute. reflexivity.
Qed.

(** C2, as amended, for a rotate-left and then a throttle-up intent. *)
Lemma exhausted_budget_witness :
  exists w1,
    handle_keys cos_axis sin_axis blind (field 400 200) left_key exhausted = Some (false, w1) /\
    state (self w1) = Member LAND /\
    handle_keys cos_axis sin_axis blind (field 400 200) up_key w1 = Some (false, w1) /\
    self w1 = set_state (Member LAND) (set_time_in_air 0 (self exhausted)) /\
    mode (self w1) = mode (self exhausted).
Proof.
  apply (exhausted_budget_discards_every_input cos_axis sin_axis blind
           (field 400 200) left_key up_key exhausted).
  reflexivity.
Defined.

(** C3 for 7500 calls with no key pressed. *)
Lemma budget_negative_witness :
  exists bs w',
    run cos_axis sin_axis blind (field 400 200) (repeat no_key (300 * 25))
      (fresh 100 100 three_lidars) = Some (bs, w') /\
    (time_in_air (self w') <? 0) = true.
Proof.
  destruct (run cos_axis sin_axis blind (field 400 200) (repeat no_key (300 * 25))
              (fresh 100 100 three_lidars)) as [[bs w']|] eqn:E.
  - exists bs, w'. split; [reflexivity|].
    apply (budget_negative_after_7500_calls cos_axis sin_axis blind (field 400 200)
             (repeat no_key (300 * 25)) (fresh 100 100 three_lidars) w' bs).
    + reflexivity.
    + apply repeat_length.
    + exact E.
  - vm_compute in E. discriminate E.
Defined.

(** ** Telemetry: the battery text *)

Section TelemetryFacts.

Local Open Scope Z_scope.

Lemma SF_max_flight_time :
  Prim2SF MAX_FLIGHT_TIME = S754_finite false 5277655813324800 (-44).
Proof. reflexivity. Qed.

Lemma SF_million : Prim2SF 1e6 = S754_finite false 8589934592000000 (-33).
Proof. reflexivity. Qed.

Lemma digits2_pos_le (p : positive) (k : Z) : Zpos p < 2 ^ k -> Zpos (digits2_pos p) <= k.
Proof.
  intros H. destruct (digits2_pos_bounds p) as [Hlo _].
  destruct (Z_le_gt_dec (Zpos (digits2_pos p)) k) as [|Hgt]; [assumption|exfalso].
  destruct (Z_lt_le_dec k 0) as [Hneg|Hnn].
  - rewrite Z.pow_neg_r in H by lia. lia.
  - assert (2 ^ k <= 2 ^ (Zpos (digits2_pos p) - 1)) by (apply pow2_le; lia). lia.
Qed.

(** [int(t)] of a float between 0 and 300. *)
Lemma py_int_bounded (t : float) (m : positive) (e : Z) :
  Prim2SF t = S754_finite false m e ->
  units m e <= units 5277655813324800 (-44) ->
  exists w, py_int t = Some w /\ 0 <= w <= 300.
Proof.
  intros Ht Hu. unfold py_int. rewrite Ht. cbn [cond_Zopp].
  eexists. split; [reflexivity|].
  assert (V : valid_binary (S754_finite false m e) = true)
    by (rewrite <- Ht; apply Prim2SF_valid).
  apply valid_finite in V. destruct V as (He & _ & _).
  split; [apply Z.shiftl_nonneg; lia|].
  unfold units in Hu. change (-44 + 1074) with 1030 in Hu.
  destruct (Z_lt_le_dec e 0) as [Hneg|Hnn].
  - rewrite Z.shiftl_div_pow2 by lia.
    assert (Hp : 0 < 2 ^ (- e)) by (apply pow2_pos; lia).
    apply Z.div_le_upper_bound; [exact Hp|].
    assert (Hq : 0 < 2 ^ (e + 1074)) by (apply pow2_pos; lia).
    assert (Hs : 2 ^ (- e) * 2 ^ (e + 1074) = 2 ^ 44 * 2 ^ 1030).
    { rewrite <- !pow2_split by lia. f_equal. lia. }
    change 5277655813324800 with (300 * 2 ^ 44) in Hu. nia.
  - rewrite Z.shiftl_mul_pow2 by lia.
    rewrite (pow2_split e 1074) in Hu by lia.
    change 5277655813324800 with (300 * 2 ^ 44) in Hu.
    assert (Hs : 2 ^ 1074 = 2 ^ 44 * 2 ^ 1030) by reflexivity.
    pose proof (pow2_pos 1074 ltac:(lia)).
    nia.
Qed.

(** The fraction [modf] splits off a nonnegative finite float: zero, or a
    positive finite float below one. *)
Lemma modf_frac_cases (t : float) (m : positive) (e : Z) :
  Prim2SF t = S754_finite false m e ->
  Timedelta.modf_frac t = 0%float \/
  exists mz ez,
    Prim2SF (Timedelta.modf_frac t) = S754_finite false mz ez /\
    units mz ez < 2 ^ 1074.
Proof.
  intros Ht.
  assert (V : valid_binary (S754_finite false m e) = true)
    by (rewrite <- Ht; apply Prim2SF_valid).
  apply valid_finite in V. destruct V as (He & Hm & _).
  unfold Timedelta.modf_frac. rewrite Ht. cbn [Timedelta.SFmodf_frac cond_Zopp].
  destruct (0 <=? e) eqn:Hse; [now left|].
  apply Z.leb_gt in Hse.
  assert (Hp : 0 < 2 ^ (- e)) by (apply pow2_pos; lia).
  pose proof (Z.mod_pos_bound (Zpos m) (2 ^ (- e)) Hp) as Hr.
  pose proof (Z.mod_le (Zpos m) (2 ^ (- e)) ltac:(lia) Hp) as Hrm.
  destruct (Zpos m mod 2 ^ (- e)) as [|p|p] eqn:Hmod; [now left| |lia].
  right. cbn [binary_normalize].
  assert (Hd : Zpos (digits2_pos p) <= 53) by (apply digits2_pos_le; lia).
  destruct (binary_round_exact p e) as (mz & Hb & Hmz & Vz).
  { unfold fexp, SpecFloat.emin, prec, emax. lia. }
  { unfold fexp, SpecFloat.emin, prec, emax. lia. }
  set (F := fexp prec emax (Zpos (digits2_pos p) + e)) in *.
  assert (HF : -1074 <= F <= e) by (unfold F, fexp, SpecFloat.emin, prec, emax; lia).
  exists mz, F. rewrite Hb. split.
  - apply Prim2SF_SF2Prim. exact Vz.
  - unfold units. rewrite Hmz.
    rewrite <- Z.mul_assoc, <- (pow2_split (e - F) (F + 1074)) by lia.
    replace (e - F + (F + 1074)) with (e + 1074) by lia.
    replace 1074 with (- e + (e + 1074)) at 2 by lia.
    rewrite (pow2_split (- e) (e + 1074)) by lia.
    apply Z.mul_lt_mono_pos_r; [apply pow2_pos|]; lia.
Qed.

Lemma round_half_even_bounds (p : positive) (e : Z) :
  e < 0 ->
  Zpos p / 2 ^ (- e) <= round_half_even p e <= Zpos p / 2 ^ (- e) + 1.
Proof.
  intros He. unfold round_half_even.
  replace (0 <=? e) with false by (symmetry; apply Z.leb_gt; lia).
  cbv zeta. rewrite Z.shiftr_div_pow2 by lia.
  destruct (2 * (Zpos p mod 2 ^ (- e)) ?= 2 ^ (- e)); [|lia|lia].
  destruct (Z.even (Zpos p / 2 ^ (- e))); lia.
Qed.

(** The microseconds of a fraction below one: at most one more than a
    million. *)
Lemma microseconds_bounded (f : float) (mz : positive) (ez : Z) :
  Prim2SF f = S754_finite false mz ez ->
  units mz ez < 2 ^ 1074 ->
  exists us, py_round (f * 1e6)%float = Some us /\ 0 <= us <= 1000001.
Proof.
  intros Hf Hu.
  assert (V : valid_binary (S754_finite false mz ez) = true)
    by (rewrite <- Hf; apply Prim2SF_valid).
  apply valid_finite in V. destruct V as (Hez & _ & _).
  assert (Hneg : ez < 0).
  { unfold units in Hu.
    destruct (Z_lt_le_dec ez 0) as [|Hnn]; [assumption|exfalso].
    assert (2 ^ 1074 <= 2 ^ (ez + 1074)) by (apply pow2_le; lia). nia. }
  unfold py_round. rewrite mul_spec, Hf, SF_million.
  unfold SF64mul. cbn [SFmul xorb].
  set (P := (mz * 8589934592000000)%positive).
  set (E := ez + -33).
  destruct (binary_round_aux_spec P E 1200) as (m & e & Hr & Hm & He & Hv);
    [unfold E; lia|].
  rewrite Hr.
  assert (HP : Zpos P * 2 ^ (E + 1200) < 1000000 * 2 ^ 1200).
  { unfold P, E, units in *. rewrite Pos2Z.inj_mul.
    replace (ez + -33 + 1200) with ((ez + 1074) + 93) by lia.
    rewrite (pow2_split (ez + 1074) 93) by lia.
    change (2 ^ 1200) with (2 ^ 1074 * 2 ^ 126).
    change (Zpos 8589934592000000) with (1000000 * 2 ^ 33).
    change (2 ^ 126) with (2 ^ 33 * 2 ^ 93).
    pose proof (pow2_pos 93 ltac:(lia)). pose proof (pow2_pos 33 ltac:(lia)).
    pose proof (pow2_pos (ez + 1074) ltac:(lia)).
    assert (Zpos mz * 2 ^ (ez + 1074) * (2 ^ 33 * 2 ^ 93) < 2 ^ 1074 * (2 ^ 33 * 2 ^ 93)).
    { apply Z.mul_lt_mono_pos_r; lia. }
    nia. }
  assert (HdP : Zpos (digits2_pos P) + E <= 20).
  { destruct (digits2_pos_bounds P) as [Hlo _].
    assert (2 ^ (Zpos (digits2_pos P) - 1 + (E + 1200)) < 2 ^ (20 + 1200)).
    { rewrite (pow2_split (Zpos (digits2_pos P) - 1) (E + 1200)) by (unfold E; lia).
      apply Z.le_lt_trans with (Zpos P * 2 ^ (E + 1200)).
      - apply Z.mul_le_mono_nonneg_r; [|exact Hlo].
        apply Z.lt_le_incl, pow2_pos. unfold E. lia.
      - apply Z.lt_trans with (1 := HP).
        change (2 ^ (20 + 1200)) with (2 ^ 20 * 2 ^ 1200).
        apply Z.mul_lt_mono_pos_r; [apply pow2_pos|]; lia. }
    apply pow2_lt_inv in H; unfold E in *; lia. }
  assert (He32 : e <= -32).
  { unfold fexp, SpecFloat.emin, prec, emax, E in *. lia. }
  unfold rounded. destruct m as [|p|p]; [| |lia].
  - exists 0. split; [reflexivity|lia].
  - replace (e <=? emax - prec) with true
      by (symmetry; apply Z.leb_le; unfold emax, prec; lia).
    cbn [cond_Zopp]. eexists. split; [reflexivity|].
    pose proof (round_half_even_bounds p e ltac:(lia)) as Hb.
    assert (Hq : 0 < 2 ^ (- e)) by (apply pow2_pos; lia).
    assert (0 <= Zpos p / 2 ^ (- e)) by (apply Z.div_pos; lia).
    assert (Zpos p / 2 ^ (- e) <= 1000000); [|lia].
    apply Z.div_le_upper_bound; [exact Hq|].
    assert (He0 : 0 < 2 ^ (e + 1200)) by (apply pow2_pos; unfold E in *; lia).
    assert (Hs : 2 ^ 1200 = 2 ^ (- e) * 2 ^ (e + 1200)).
    { rewrite <- pow2_split by (unfold E in *; lia). f_equal. lia. }
    rewrite Hs in HP.
    destruct Hv as [Hv _].
    assert ((Zpos p - 1) * 2 ^ (e + 1200) < 1000000 * 2 ^ (- e) * 2 ^ (e + 1200)) by lia.
    apply Z.mul_lt_mono_pos_r in H0; lia.
Qed.

Lemma all_from_spec (f : Z -> bool) (n : nat) (z k : Z) :
  all_from z n f = true -> z <= k < z + Z.of_nat n -> f k = true.
Proof.
  revert z. induction n as [|n IH]; intros z H Hk; [lia|].
  cbn [all_from] in H. apply andb_prop in H. destruct H as [Hz Hrest].
  destruct (Z.eq_dec k z) as [->|Hne]; [exact Hz|].
  apply (IH (z + 1) Hrest). lia.
Qed.

Lemma clock_check : all_from 0 302 clock_ok = true.
Proof. vm_compute. reflexivity. Qed.

Lemma before_dot_app (s x : string) :
  before_dot s = s -> before_dot (s ++ String "." x) = s.
Proof.
  induction s as [|c r IH]; cbn; [reflexivity|].
  destruct (Ascii.eqb c "."); [discriminate|].
  intros H. injection H as H. now rewrite IH.
Qed.

(** A duration of at most 301 seconds prints, up to its first dot, as
    [H:MM:SS]. *)
Lemma str_H_MM_SS (secs us : Z) :
  0 <= secs <= 301 ->
  is_H_MM_SS (before_dot (Timedelta.str (Timedelta.mkTimedelta 0 secs us))) = true.
Proof.
  intros Hs.
  pose proof (all_from_spec clock_ok _ 0 secs clock_check ltac:(lia)) as Hok.
  unfold clock_ok in Hok. cbv zeta in Hok.
  apply andb_prop in Hok. destruct Hok as [Hshape Hdot].
  apply String.eqb_eq in Hdot.
  unfold Timedelta.str. cbn [Timedelta.days Timedelta.seconds Timedelta.microseconds].
  cbv zeta. change (0 =? 0) with true. cbv iota.
  destruct (us =? 0).
  - now rewrite Hdot.
  - change (?a ++ "." ++ ?b)%string with (a ++ String "." b)%string.
    now rewrite before_dot_app.
Qed.

Lemma of_seconds_in_range (t : float) :
  (0 <=? t)%float = true -> (t <=? MAX_FLIGHT_TIME)%float = true ->
  exists secs us,
    Timedelta.of_seconds t = Some (Timedelta.mkTimedelta 0 secs us) /\
    0 <= secs <= 301.
Proof.
  intros H0 H1.
  destruct (between_cases t _ _ _ SF_max_flight_time H0 H1) as [[b Hz]|(m & e & Ht & Hu)].
  - destruct (zero_cases t b Hz) as [-> | ->]; exists 0, 0; split; (reflexivity || lia).
  - destruct (py_int_bounded t m e Ht Hu) as (w & Hw & Hwr).
    assert (Hus : exists us, py_round (Timedelta.modf_frac t * 1e6)%float = Some us
                             /\ 0 <= us <= 1000001).
    { destruct (modf_frac_cases t m e Ht) as [->|(mz & ez & Hf & Hfu)].
      - exists 0. split; [reflexivity|lia].
      - exact (microseconds_bounded _ mz ez Hf Hfu). }
    destruct Hus as (us & Hus & Husr).
    unfold Timedelta.of_seconds. rewrite Hw, Hus. cbv zeta.
    assert (Hd : (w * 1000000 + us) / 86400000000 = 0) by (apply Z.div_small; lia).
    rewrite Hd. cbn [Z.abs Z.leb Z.compare].
    eexists _, _. split; [reflexivity|].
    assert (0 <= (w * 1000000 + us) / 1000000 <= 301).
    { split; [apply Z.div_pos; lia|].
      assert ((w * 1000000 + us) / 1000000 < 302); [|lia].
      apply Z.div_lt_upper_bound; lia. }
    rewrite Z.mod_small; lia.
Qed.

Lemma battery_in_range (t : float) :
  (0 <=? t)%float = true -> (t <=? MAX_FLIGHT_TIME)%float = true ->
  exists b, battery t = Some b /\ is_H_MM_SS b = true.
Proof.
  intros H0 H1.
  destruct (of_seconds_in_range t H0 H1) as (secs & us & Hof & Hs).
  unfold battery. rewrite Hof. cbn [option_map].
  eexists. split; [reflexivity|].
  apply str_H_MM_SS. lia.
Qed.

End TelemetryFacts.

(** C9: for every time budget between 0 and [MAX_FLIGHT_TIME] the battery
    text is strictly of the shape [H:MM:SS], whole seconds with nothing
    after them, and it is the [battery] entry of the snapshot of any drone
    with its three lidars. *)
Theorem snapshot_battery_is_H_MM_SS (d : Drone) :
  (0 <=? time_in_air d) = true -> (time_in_air d <=? MAX_FLIGHT_TIME) = true ->
  exists b,
    battery (time_in_air d) = Some b /\
    is_H_MM_SS b = true /\
    ((3 <= List.length (lidars d))%nat ->
     exists info, get_info_dict d = Some info /\ info_battery info = b).
Proof.
  intros H0 H1.
  destruct (battery_in_range _ H0 H1) as (b & Hb & Hshape).
  exists b. split; [exact Hb|]. split; [exact Hshape|].
  intros Hlen. unfold get_info_dict. rewrite Hb.
  destruct (lidars d) as [|l0 [|l1 [|l2 rest]]]; cbn in Hlen; try lia.
  cbn. eexists. split; reflexivity.
Qed.

(** C9 for the full budget of a fresh drone. *)
Lemma snapshot_battery_witness :
  exists b,
    battery (time_in_air (init 100 100 white black three_lidars)) = Some b /\
    is_H_MM_SS b = true /\
    ((3 <= List.length (lidars (init 100 100 white black three_lidars)))%nat ->
     exists info, get_info_dict (init 100 100 white black three_lidars) = Some info /\
                  info_battery info = b).
Proof.
  apply (snapshot_battery_is_H_MM_SS (init 100 100 white black three_lidars)); reflexivity.
Defined.

Example snapshot_of_a_fresh_drone :
  option_map info_battery (get_info_dict (init 100 100 white black three_lidars))
  = Some "0:05:00"%string.
Proof. vm_compute. reflexivity. Qed.

(** * Further properties of the methods *)

(** ** Throttle: the range of the speed *)

Section ThrottleRange.

Local Open Scope Z_scope.

(** The rounding keeps the sign it is given. *)
Lemma binary_round_negative (p : positive) (e : Z) :
  SFltb (S754_zero false) (binary_round prec emax true p e) = false.
Proof.
  unfold binary_round. destruct (shl_align p e _) as [mz ez].
  unfold binary_round_aux.
  destruct (shr_fexp prec emax (Zpos mz) ez loc_Exact) as [mrs1 e1].
  destruct (shr_fexp prec emax _ e1 loc_Exact) as [mrs3 e3].
  destruct (shr_m mrs3); [reflexivity| |reflexivity].
  destruct (e3 <=? emax - prec); reflexivity.
Qed.

(** The difference of two positive finite floats, by the sign of the exact
    difference. *)
Lemma SFsub_cases (mx my : positive) (ex ey : Z) :
  valid_binary (S754_finite false mx ex) = true ->
  valid_binary (S754_finite false my ey) = true ->
  let ez := Z.min ex ey in
  exists D : Z,
    D * 2 ^ (ez + 1074) = units mx ex - units my ey /\
    SF64sub (S754_finite false mx ex) (S754_finite false my ey)
    = binary_normalize prec emax D ez false.
Proof.
  intros Vx Vy ez.
  apply valid_finite in Vx, Vy.
  destruct Vx as (Hex & _ & _), Vy as (Hey & _ & _).
  unfold SF64sub. cbn [SFsub cond_Zopp]. fold ez.
  destruct (shl_align_spec mx ex ez) as (Hax & Hav & _).
  destruct (shl_align_spec my ey ez) as (Hbx & Hbv & _).
  destruct (shl_align mx ex ez) as [a ea], (shl_align my ey ez) as [b eb].
  cbn [fst snd] in *.
  assert (Hea : ea = ez) by lia. assert (Heb : eb = ez) by lia.
  rewrite Hea in Hav. rewrite Heb in Hbv.
  exists (Zpos a - Zpos b). split; [|reflexivity].
  unfold units. rewrite Hav, Hbv.
  replace (ex + 1074) with ((ex - ez) + (ez + 1074)) by lia.
  replace (ey + 1074) with ((ey - ez) + (ez + 1074)) by lia.
  rewrite (pow2_split (ex - ez) (ez + 1074)), (pow2_split (ey - ez) (ez + 1074)) by lia.
  ring.
Qed.

Lemma SF_fifth : Prim2SF 0.2 = S754_finite false 7205759403792794 (-55).
Proof. reflexivity. Qed.

(** [backward] from a speed between 0 and 2: the new speed is positive and
    at most 2. *)
Lemma backward_in_range (s : float) :
  (0 <=? s)%float = true -> (s <=? 2)%float = true ->
  (0 <? backward_speed 1 s)%float = true /\ (backward_speed 1 s <=? 2)%float = true.
Proof.
  intros H0 H2. split; [apply backward_positive|].
  unfold backward_speed.
  destruct (0 <? s - 0.2 * 1)%float eqn:Hn; [|reflexivity].
  destruct (between_cases s 2 _ _ SF_two H0 H2) as [[b Hz]|(m & e & Hs & Hu)].
  - destruct (zero_cases s b Hz) as [-> | ->]; vm_compute in Hn; discriminate.
  - assert (Vs : valid_binary (S754_finite false m e) = true)
      by (rewrite <- Hs; apply Prim2SF_valid).
    assert (Vc : valid_binary (S754_finite false 7205759403792794 (-55)) = true) by reflexivity.
    destruct (SFsub_cases m 7205759403792794 e (-55) Vs Vc) as (D & HD & Hsub).
    cbv zeta in HD, Hsub.
    assert (Hn' : Prim2SF (s - 0.2 * 1) = binary_normalize prec emax D (Z.min e (-55)) false).
    { rewrite sub_spec, Hs, SF_step. exact Hsub. }
    rewrite ltb_spec, Hn' in Hn.
    replace (Prim2SF 0) with (S754_zero false) in Hn by reflexivity.
    apply valid_finite in Vs. destruct Vs as (He & _ & _).
    set (ez := Z.min e (-55)) in *.
    destruct D as [|p|p]; cbn [binary_normalize] in *.
    + discriminate.
    + set (F := fexp prec emax (Zpos (digits2_pos p) + ez)).
      assert (HF : -1074 <= F) by (unfold F, fexp, SpecFloat.emin, prec, emax; lia).
      destruct (binary_round_spec p ez 1074) as (m' & e' & Hr & Hm' & He' & Hv);
        [fold F; lia|].
      fold F in He'. rewrite HD in Hv.
      assert (Hez : 0 < 2 ^ (ez + 1074)) by (apply pow2_pos; lia).
      unfold units in Hu. change (-51 + 1074) with 1023 in Hu.
      assert (Hc : units 7205759403792794 (-55) = 7205759403792794 * 2 ^ 1019) by reflexivity.
      assert (HdS : Zpos (digits2_pos p) + ez <= 1).
      { destruct (digits2_pos_bounds p) as [Hlo _].
        assert (2 ^ (Zpos (digits2_pos p) - 1 + (ez + 1074)) < 2 ^ (1 + 1074)).
        { rewrite (pow2_split (Zpos (digits2_pos p) - 1) (ez + 1074)) by lia.
          apply Z.le_lt_trans with (Zpos p * 2 ^ (ez + 1074)).
          - apply Z.mul_le_mono_nonneg_r; lia.
          - rewrite HD, Hc. unfold units.
            change (2 ^ (1 + 1074)) with (2 ^ 4 * 2 ^ 52 * 2 ^ 1019).
            change (2 ^ 1023) with (2 ^ 4 * 2 ^ 1019) in Hu.
            pose proof (pow2_pos 1019 ltac:(lia)). lia. }
        apply pow2_lt_inv in H; lia. }
      assert (He51 : e' <= -51) by (unfold F, fexp, SpecFloat.emin, prec, emax in *; lia).
      rewrite Hr in Hn', Hn. unfold rounded in Hn', Hn.
      destruct m' as [|p'|p']; [discriminate| |lia].
      replace (e' <=? emax - prec) with true in Hn'
        by (symmetry; apply Z.leb_le; unfold emax, prec; lia).
      rewrite (leb_units _ 2 p' _ e' _ Hn' SF_two). apply Z.leb_le.
      unfold units in *. change (-51 + 1074) with 1023.
      assert (2 ^ (e' + 1074) <= 2 ^ 1023) by (apply pow2_le; lia).
      change (2 ^ 1023) with (2 ^ 4 * 2 ^ 1019) in *.
      pose proof (pow2_pos 1019 ltac:(lia)).
      assert (0 < 2 ^ (e' + 1074)) by (apply pow2_pos; lia).
      rewrite Hc in *. nia.
    + rewrite binary_round_negative in Hn. discriminate.
Qed.

Lemma zero_lt_finite (x : float) (m : positive) (e : Z) :
  Prim2SF x = S754_finite false m e -> (0 <? x)%float = true.
Proof.
  intros H. rewrite ltb_spec, H.
  replace (Prim2SF 0) with (S754_zero false) by reflexivity. reflexivity.
Qed.

(** [forward] from a speed between 0 and 2: the new speed is positive, at
    most 2, and above the old one unless that was 2 already. *)
Lemma forward_in_range (s : float) :
  (0 <=? s)%float = true -> (s <=? 2)%float = true ->
  (0 <? forward_speed 1 s)%float = true /\
  (forward_speed 1 s <=? 2)%float = true /\
  ((s <? 2)%float = true -> (s <? forward_speed 1 s)%float = true).
Proof.
  intros H0 H2. split; [|split; [apply forward_le_2|]].
  - destruct (between_cases s 2 _ _ SF_two H0 H2) as [[b Hz]|(m & e & Hs & Hu)].
    + destruct (zero_cases s b Hz) as [-> | ->]; reflexivity.
    + unfold forward_speed.
      destruct (s + 0.2 * 1 <? 2)%float eqn:Hn; [|reflexivity].
      assert (Vs : valid_binary (S754_finite false m e) = true)
        by (rewrite <- Hs; apply Prim2SF_valid).
      assert (Vc : valid_binary (S754_finite false 7205759403792794 (-55)) = true)
        by reflexivity.
      destruct (SFadd_units m 7205759403792794 e (-55) 2 Vs Vc ltac:(lia))
        as (m' & e' & Ha & _ & _).
      { unfold units in *. change (-51 + 1074) with 1023 in Hu.
        change (-55 + 1074) with 1019. change (2 + 1074) with 1076.
        change (2 ^ 1076) with (2 ^ 57 * 2 ^ 1019).
        change (2 ^ 1023) with (2 ^ 4 * 2 ^ 1019) in Hu.
        pose proof (pow2_pos 1019 ltac:(lia)). lia. }
      apply (zero_lt_finite _ m' e'). rewrite add_spec, Hs, SF_step. exact Ha.
  - intros Hlt.
    destruct (between_cases s 2 _ _ SF_two H0 H2) as [[b Hz]|(m & e & Hs & Hu)].
    + destruct (zero_cases s b Hz) as [-> | ->]; reflexivity.
    + unfold forward_speed.
      destruct (s + 0.2 * 1 <? 2)%float eqn:Hn; [|exact Hlt].
      assert (Vs : valid_binary (S754_finite false m e) = true)
        by (rewrite <- Hs; apply Prim2SF_valid).
      assert (Vc : valid_binary (S754_finite false 7205759403792794 (-55)) = true)
        by reflexivity.
      destruct (SFadd_units m 7205759403792794 e (-55) 2 Vs Vc ltac:(lia))
        as (m' & e' & Ha & He' & Hv).
      { unfold units in *. change (-51 + 1074) with 1023 in Hu.
        change (-55 + 1074) with 1019. change (2 + 1074) with 1076.
        change (2 ^ 1076) with (2 ^ 57 * 2 ^ 1019).
        change (2 ^ 1023) with (2 ^ 4 * 2 ^ 1019) in Hu.
        pose proof (pow2_pos 1019 ltac:(lia)). lia. }
      assert (Hn' : Prim2SF (s + 0.2 * 1) = S754_finite false m' e')
        by (rewrite add_spec, Hs, SF_step; exact Ha).
      rewrite (ltb_units s _ m m' e e' Hs Hn'). apply Z.ltb_lt.
      assert (2 ^ (e' + 1074) <= 2 ^ 1024).
      { apply valid_finite in Vs. apply pow2_le.
        assert (Ve' : valid_binary (S754_finite false m' e') = true)
          by (rewrite <- Hn'; apply Prim2SF_valid).
        apply valid_finite in Ve'. lia. }
      assert (Hc : units 7205759403792794 (-55) = 7205759403792794 * 2 ^ 1019) by reflexivity.
      rewrite Hc in Hv. change (2 ^ 1024) with (2 ^ 5 * 2 ^ 1019) in H.
      pose proof (pow2_pos 1019 ltac:(lia)). lia.
Qed.

(** [backward] from a speed at or below 0.2: the difference is not
    positive, whatever its rounding, and the floor is stored. *)
Lemma backward_floor_speed (s : float) :
  (s <=? 0.2)%float = true -> backward_speed 1 s = 0.2%float.
Proof.
  intros Hle. unfold backward_speed.
  replace (0 <? s - 0.2 * 1)%float with false; [reflexivity|]. symmetry.
  rewrite leb_spec, SF_fifth in Hle.
  destruct (Prim2SF s) as [b|b| |b m e] eqn:Hs.
  - destruct (zero_cases s b Hs) as [-> | ->]; reflexivity.
  - destruct b; [|discriminate].
    rewrite <- (SF2Prim_Prim2SF s), Hs. reflexivity.
  - discriminate.
  - rewrite ltb_spec, sub_spec, Hs, SF_step.
    replace (Prim2SF 0) with (S754_zero false) by reflexivity.
    destruct b.
    + unfold SF64sub. cbn [SFsub cond_Zopp].
      destruct (shl_align m e _) as [a ea], (shl_align 7205759403792794 (-55) _) as [c ec].
      cbn [fst]. change (- Zpos a - Zpos c) with (Zneg (a + c)).
      cbn [binary_normalize]. apply binary_round_negative.
    + assert (Vs : valid_binary (S754_finite false m e) = true)
        by (rewrite <- Hs; apply Prim2SF_valid).
      assert (Vc : valid_binary (S754_finite false 7205759403792794 (-55)) = true)
        by reflexivity.
      unfold SFleb in Hle. rewrite (SFcompare_units _ _ _ _ Vs Vc) in Hle.
      destruct (SFsub_cases m 7205759403792794 e (-55) Vs Vc) as (D & HD & ->).
      apply valid_finite in Vs. destruct Vs as (He & _ & _).
      assert (Hp : 0 < 2 ^ (Z.min e (-55) + 1074)) by (apply pow2_pos; lia).
      assert (HDle : D <= 0).
      { assert (Hu : units m e <= units 7205759403792794 (-55)).
        { destruct (units m e ?= units 7205759403792794 (-55)) eqn:Hc; try discriminate.
          - apply Z.compare_eq in Hc. rewrite Hc. apply Z.le_refl.
          - apply Z.compare_lt_iff in Hc. apply Z.lt_le_incl, Hc. }
        set (p := 2 ^ (Z.min e (-55) + 1074)) in *.
        set (u1 := units m e) in *. set (u2 := units _ (-55)) in *.
        destruct (Z.le_gt_cases D 0) as [|Hpos]; [assumption|].
        assert (0 < D * p) by (apply Z.mul_pos_pos; lia). lia. }
      destruct D as [|p|p]; [reflexivity|lia|].
      cbn [binary_normalize]. apply binary_round_negative.
Qed.

(** A finite budget at or below zero is set to exactly zero. *)
Lemma tick_spent (t : float) :
  (t <=? 0)%float = true -> (neg_infinity <? t)%float = true -> tick t = 0%float.
Proof.
  intros Hle Hfin. unfold tick.
  rewrite leb_spec in Hle. rewrite ltb_spec in Hfin.
  replace (Prim2SF 0) with (S754_zero false) in Hle by reflexivity.
  replace (Prim2SF neg_infinity) with (S754_infinity true) in Hfin by reflexivity.
  destruct (Prim2SF t) as [b|b| |b m e] eqn:Ht.
  - destruct (zero_cases t b Ht) as [-> | ->]; reflexivity.
  - destruct b; discriminate.
  - discriminate.
  - destruct b; [|discriminate].
    replace (0 <? t)%float with false.
    + apply Prim2SF_inj. rewrite sub_spec, Ht.
      unfold SF64sub. cbn [SFsub cond_Zopp].
      destruct (shl_align m e _) as [a ea]. cbn [fst].
      rewrite Z.sub_diag. reflexivity.
    + rewrite ltb_spec, Ht. reflexivity.
Qed.
End ThrottleRange.

(** X2: below the cap a throttle-up always has an effect.  From a speed
    between 0 and 2 that is not 2 itself, [forward] stores a strictly
    larger speed, which is still at most 2: no speed below the cap is a
    fixed point of [forward]. *)
Theorem forward_raises_a_speed_below_2 (d : Drone) :
  (0 <=? speed d) = true ->
  (speed d <? 2) = true ->
  (speed d <? speed (forward 1 d)) = true /\ (speed (forward 1 d) <=? 2) = true.
Proof.
  intros H0 H2.
  destruct (forward_in_range (speed d) H0 (ltb_leb _ _ H2)) as (_ & F2 & F3).
  split; [exact (F3 H2) | exact F2].
Qed.

(** X2 for a drone at speed 1. *)
Lemma forward_raises_witness :
  (speed (self walled_in) <? speed (forward 1 (self walled_in))) = true /\
  (speed (forward 1 (self walled_in)) <=? 2) = true.
Proof.
  apply (forward_raises_a_speed_below_2 (self walled_in)); reflexivity.
Defined.

(** X3: a throttle-down on a slow drone speeds it up.  From every speed at
    or below 0.2, a negative speed, a zero and minus infinity included,
    [backward] stores exactly 0.2; a drone fresh from [__init__], at speed
    0, is set in motion by its first throttle-down. *)
Theorem backward_lifts_a_slow_drone_to_the_floor (d : Drone) :
  (speed d <=? 0.2) = true ->
  speed (backward 1 d) = 0.2.
Proof. intros H. exact (backward_floor_speed (speed d) H). Qed.

(** X3 for a fresh drone. *)
Lemma backward_floor_witness :
  speed (backward 1 (self (fresh 100 100 three_lidars))) = 0.2.
Proof.
  apply (backward_lifts_a_slow_drone_to_the_floor (self (fresh 100 100 three_lidars))).
  reflexivity.
Defined.

(** ** The call protocol: what one call and a run of calls leave behind *)

Lemma bump_error_case (c : Color) (d : Drone) : error_case (bump c d) = crash_after c d.
Proof.
  unfold bump, crash_after.
  destruct (color_eqb c (bounds_color d)); cbn [error_case set_error_case]; lia.
Qed.

Lemma crash_after_bounds (c : Color) (d : Drone) :
  (error_case d <= crash_after c d <= error_case d + 1)%Z.
Proof. unfold crash_after. destruct (color_eqb c (bounds_color d)); lia. Qed.

Lemma bump_frame (c : Color) (d : Drone) :
  state (bump c d) = state d /\ yaw (bump c d) = yaw d /\
  speed (bump c d) = speed d /\ time_in_air (bump c d) = time_in_air d /\
  x_position (bump c d) = x_position d /\ y_position (bump c d) = y_position d /\
  lidars (bump c d) = lidars d.
Proof. unfold bump. destruct (color_eqb c (bounds_color d)); repeat split. Qed.

Lemma entered_time (d : Drone) : time_in_air (entered d) = tick (time_in_air d).
Proof. reflexivity. Qed.

Lemma entered_state (d : Drone) :
  state (entered d) = if is_land (state d) then Member TAKE_OFF else state d.
Proof. unfold entered. destruct (is_land (state d)); reflexivity. Qed.

Lemma entered_frame (d : Drone) :
  yaw (entered d) = yaw d /\ speed (entered d) = speed d /\
  error_case (entered d) = error_case d /\
  x_position (entered d) = x_position d /\ y_position (entered d) = y_position d /\
  lidars (entered d) = lidars d /\ bounds_color (entered d) = bounds_color d.
Proof. unfold entered. destruct (is_land (state d)); repeat split. Qed.

Lemma color_eqb_eq (c1 c2 : Color) : color_eqb c1 c2 = true <-> c1 = c2.
Proof.
  destruct c1 as [[r1 g1] b1], c2 as [[r2 g2] b2]. unfold color_eqb. split.
  - intros H. apply andb_prop in H. destruct H as [H Hb].
    apply andb_prop in H. destruct H as [Hr Hg].
    apply Z.eqb_eq in Hr, Hg, Hb. congruence.
  - intros H. injection H as -> -> ->. now rewrite !Z.eqb_refl.
Qed.

Section CallFacts.

Variables cos sin : float -> float.
Variable lidar_check_bounds : Lidar -> Surface -> option (Z * Z).

(** [handle_keys] as one case analysis: the entry, the budget test, the
    sample, and at most one intent. *)
Lemma handle_keys_eq (maze : Surface) (key : Keys) (w : World) :
  handle_keys cos sin lidar_check_bounds maze key w =
  let d1 := entered (self w) in
  if time_in_air d1 =? 0 then
    Some (false, mkWorld (set_state (Member LAND) d1) (game_display w))
  else
    match check_bounds lidar_check_bounds maze (mkWorld d1 (game_display w)) with
    | None => None
    | Some (_, w1) =>
        if K_LEFT key then
          option_map (fun r => (true, snd r)) (rotate lidar_check_bounds maze (-1) w1)
        else if K_RIGHT key then
          option_map (fun r => (true, snd r)) (rotate lidar_check_bounds maze 1 w1)
        else if K_UP key then
          option_map (fun r => (true, snd r))
            (move cos sin maze (mkWorld (forward 1 (self w1)) (game_display w1)))
        else if K_DOWN key then
          option_map (fun r => (true, snd r))
            (move cos sin maze (mkWorld (backward 1 (self w1)) (game_display w1)))
        else Some (false, w1)
    end.
Proof.
  destruct w as [[st y m sp t e sc r x yp ls col bc] g].
  unfold handle_keys, entered. cbv zeta.
  assert (Hentry :
    forall d0 : Drone,
      (d <- get_self ;;
       (if time_in_air d =? 0 then update (set_state (Member LAND)) ;; ret false
        else
          check_bounds lidar_check_bounds maze ;;
          (if K_LEFT key then rotate lidar_check_bounds maze (-1) ;; ret true
           else if K_RIGHT key then rotate lidar_check_bounds maze 1 ;; ret true
           else if K_UP key then update (forward 1) ;; move cos sin maze ;; ret true
           else if K_DOWN key then update (backward 1) ;; move cos sin maze ;; ret true
           else ret false))) (mkWorld d0 g)
      = if time_in_air d0 =? 0 then Some (false, mkWorld (set_state (Member LAND) d0) g)
        else
          match check_bounds lidar_check_bounds maze (mkWorld d0 g) with
          | None => None
          | Some (_, w1) =>
              if K_LEFT key then
                option_map (fun r => (true, snd r)) (rotate lidar_check_bounds maze (-1) w1)
              else if K_RIGHT key then
                option_map (fun r => (true, snd r)) (rotate lidar_check_bounds maze 1 w1)
              else if K_UP key then
                option_map (fun r => (true, snd r))
                  (move cos sin maze (mkWorld (forward 1 (self w1)) (game_display w1)))
              else if K_DOWN key then
                option_map (fun r => (true, snd r))
                  (move cos sin maze (mkWorld (backward 1 (self w1)) (game_display w1)))
              else Some (false, w1)
          end).
  { intros d0. unfold bind at 1. unfold get_self at 1. cbn [self game_display].
    destruct (time_in_air d0 =? 0); [reflexivity|].
    unfold bind at 1.
    destruct (check_bounds lidar_check_bounds maze _) as [[b1 w1]|]; [|reflexivity].
    destruct (K_LEFT key).
    { unfold bind at 1. destruct (rotate _ _ _ w1) as [[u w2]|]; reflexivity. }
    destruct (K_RIGHT key).
    { unfold bind at 1. destruct (rotate _ _ _ w1) as [[u w2]|]; reflexivity. }
    destruct (K_UP key).
    { unfold bind at 1. unfold update at 1. unfold bind at 1.
      destruct (move _ _ _ _) as [[u w2]|]; reflexivity. }
    destruct (K_DOWN key).
    { unfold bind at 1. unfold update at 1. unfold bind at 1.
      destruct (move _ _ _ _) as [[u w2]|]; reflexivity. }
    reflexivity. }
  unfold bind at 1. unfold get_self at 1.
  unfold bind at 1. cbn [self game_display state is_land].
  destruct st as [|[| |]]; cbn [is_land]; unfold update at 1, ret at 1;
    unfold bind at 1; unfold update at 1; cbn [self game_display];
    rewrite Hentry; reflexivity.
Qed.

(** What the three sampling methods leave behind, read off their
    equations. *)
Lemma check_bounds_self (maze : Surface) (w w' : World) (b : bool) :
  check_bounds lidar_check_bounds maze w = Some (b, w') ->
  exists c, own_pixel maze (self w) = Some c /\ self w' = bump c (self w).
Proof.
  rewrite check_bounds_eq.
  destruct (own_pixel maze (self w)) as [c|]; [|discriminate].
  intros H. injection H as _ <-. exists c. split; reflexivity.
Qed.

Lemma rotate_self (maze : Surface) (direction : float) (w w' : World) (u : unit) :
  rotate lidar_check_bounds maze direction w = Some (u, w') ->
  exists c y,
    own_pixel maze (self w) = Some c /\
    rotate_yaw direction (speed (self w)) (yaw (self w)) = Some y /\
    self w' = bump c (set_lidars (map (add_angle (direction * speed (self w)))
                                      (lidars (self w)))
                                 (set_yaw y (self w))).
Proof.
  rewrite rotate_eq. cbv zeta.
  destruct (rotate_yaw direction (speed (self w)) (yaw (self w))) as [y|]; [|discriminate].
  destruct (own_pixel maze (self w)) as [c|]; [|discriminate].
  intros H. injection H as _ <-. exists c, y. repeat split.
Qed.

Lemma move_self (maze : Surface) (w w' : World) (u : unit) :
  move cos sin maze w = Some (u, w') ->
  exists p c,
    rounded_position (advanced cos sin (self w)) = Some p /\
    get_at maze p = Some c /\
    self w' = bump c (set_lidars (map (lidar_move p) (lidars (self w)))
                                 (advanced cos sin (self w))) /\
    game_display w' = game_display w.
Proof.
  rewrite move_eq. cbv zeta.
  destruct (rounded_position (advanced cos sin (self w))) as [p|]; [|discriminate].
  destruct (get_at maze p) as [c|] eqn:Hc; [|discriminate].
  intros H. injection H as _ <-. exists p, c.
  split; [reflexivity|]. split; [exact Hc|]. split; [|reflexivity].
  unfold bump. cbn [self bounds_color set_lidars].
  change (bounds_color (advanced cos sin (self w))) with (bounds_color (self w)).
  destruct (color_eqb c (bounds_color (self w))); reflexivity.
Qed.

(** A property of the drone that every field assignment of the methods
    keeps is kept by every list of calls. *)
Section Invariant.

Variable P : Drone -> Prop.

Hypothesis P_state : forall v d, P d -> P (set_state v d).
Hypothesis P_time : forall v d, P d -> P (set_time_in_air v d).
Hypothesis P_crash : forall d, P d -> P (set_error_case (error_case d + 1) d).
Hypothesis P_yaw : forall v d, P d -> P (set_yaw v d).
Hypothesis P_lidars :
  forall ls d, P d -> List.length ls = List.length (lidars d) -> P (set_lidars ls d).
Hypothesis P_position : forall x y d, P d -> P (set_position x y d).
Hypothesis P_forward : forall d, P d -> P (forward 1 d).
Hypothesis P_backward : forall d, P d -> P (backward 1 d).

Lemma bump_keeps (c : Color) (d : Drone) : P d -> P (bump c d).
Proof. unfold bump. destruct (color_eqb c (bounds_color d)); auto. Qed.

Lemma check_bounds_keeps (maze : Surface) (w w' : World) (b : bool) :
  check_bounds lidar_check_bounds maze w = Some (b, w') -> P (self w) -> P (self w').
Proof.
  intros H HP. apply check_bounds_self in H. destruct H as (c & _ & ->).
  now apply bump_keeps.
Qed.

Lemma rotate_keeps (maze : Surface) (direction : float) (w w' : World) (u : unit) :
  rotate lidar_check_bounds maze direction w = Some (u, w') -> P (self w) -> P (self w').
Proof.
  intros H HP. apply rotate_self in H. destruct H as (c & y & _ & _ & ->).
  apply bump_keeps, P_lidars; [now apply P_yaw|]. now rewrite length_map.
Qed.

Lemma move_keeps (maze : Surface) (w w' : World) (u : unit) :
  move cos sin maze w = Some (u, w') -> P (self w) -> P (self w').
Proof.
  intros H HP. apply move_self in H. destruct H as (p & c & _ & _ & -> & _).
  apply bump_keeps, P_lidars; [|now rewrite length_map].
  unfold advanced. cbv zeta. now apply P_position, P_position.
Qed.

Lemma handle_keys_keeps (maze : Surface) (key : Keys) (w w' : World) (b : bool) :
  handle_keys cos sin lidar_check_bounds maze key w = Some (b, w') ->
  P (self w) -> P (self w').
Proof.
  rewrite handle_keys_eq. cbv zeta. intros H HP.
  assert (H1 : P (entered (self w))).
  { unfold entered. apply P_time. destruct (is_land (state (self w))); auto. }
  destruct (time_in_air (entered (self w)) =? 0).
  - injection H as _ <-. now apply P_state.
  - destruct (check_bounds lidar_check_bounds maze _) as [[b1 w1]|] eqn:Hcb; [|discriminate].
    apply check_bounds_keeps in Hcb; [|exact H1]. cbn [self] in Hcb.
    destruct (K_LEFT key).
    { destruct (rotate _ _ _ w1) as [[u w2]|] eqn:Hr; [|discriminate].
      injection H as _ <-. exact (rotate_keeps _ _ _ _ _ Hr Hcb). }
    destruct (K_RIGHT key).
    { destruct (rotate _ _ _ w1) as [[u w2]|] eqn:Hr; [|discriminate].
      injection H as _ <-. exact (rotate_keeps _ _ _ _ _ Hr Hcb). }
    destruct (K_UP key).
    { destruct (move _ _ _ _) as [[u w2]|] eqn:Hm; [|discriminate].
      injection H as _ <-. apply (move_keeps _ _ _ _ Hm). cbn [self]. now apply P_forward. }
    destruct (K_DOWN key).
    { destruct (move _ _ _ _) as [[u w2]|] eqn:Hm; [|discriminate].
      injection H as _ <-. apply (move_keeps _ _ _ _ Hm). cbn [self]. now apply P_backward. }
    injection H as _ <-. exact Hcb.
Qed.

Lemma calls_keep (maze : Surface) (cs : list Call) (w w' : World) (u : unit) :
  calls cos sin lidar_check_bounds maze cs w = Some (u, w') ->
  P (self w) -> P (self w').
Proof.
  revert w. induction cs as [|c cs IH]; intros w H HP.
  - injection H as _ <-. exact HP.
  - cbn [calls] in H. unfold bind at 1 in H.
    destruct (call cos sin lidar_check_bounds maze c w) as [[u1 w1]|] eqn:Hc; [|discriminate].
    apply (IH w1 H). clear H IH.
    destruct c as [| |direction| |key]; cbn [call] in Hc.
    + injection Hc as _ <-. now apply P_forward.
    + injection Hc as _ <-. now apply P_backward.
    + exact (rotate_keeps _ _ _ _ _ Hc HP).
    + exact (move_keeps _ _ _ _ Hc HP).
    + unfold bind at 1 in Hc.
      destruct (handle_keys _ _ _ _ _ w) as [[b w2]|] eqn:Hk; [|discriminate].
      injection Hc as _ <-. exact (handle_keys_keeps _ _ _ _ _ Hk HP).
Qed.

End Invariant.

Lemma handle_keys_crash (maze : Surface) (key : Keys) (w w' : World) (b : bool) :
  handle_keys cos sin lidar_check_bounds maze key w = Some (b, w') ->
  (error_case (self w) <= error_case (self w') <= error_case (self w) + 2)%Z.
Proof.
  rewrite handle_keys_eq. cbv zeta.
  destruct (entered_frame (self w)) as (_ & _ & He & _).
  destruct (time_in_air (entered (self w)) =? 0).
  { intros H. injection H as _ <-. cbn [self error_case set_state]. rewrite He. lia. }
  destruct (check_bounds lidar_check_bounds maze _) as [[b1 w1]|] eqn:Hcb; [|discriminate].
  apply check_bounds_self in Hcb. destruct Hcb as (c & _ & Hw1). cbn [self] in Hw1.
  assert (H1 : (error_case (self w) <= error_case (self w1) <= error_case (self w) + 1)%Z).
  { rewrite Hw1, bump_error_case, <- He. apply crash_after_bounds. }
  assert (Hrot : forall dir u w2, rotate lidar_check_bounds maze dir w1 = Some (u, w2) ->
            (error_case (self w1) <= error_case (self w2) <= error_case (self w1) + 1)%Z).
  { intros dir u w2 Hr. apply rotate_self in Hr. destruct Hr as (c2 & y & _ & _ & ->).
    rewrite bump_error_case. exact (crash_after_bounds c2 _). }
  assert (Hmov : forall d g u w2, error_case d = error_case (self w1) ->
            move cos sin maze (mkWorld d g) = Some (u, w2) ->
            (error_case (self w1) <= error_case (self w2) <= error_case (self w1) + 1)%Z).
  { intros d g u w2 Hd Hm. apply move_self in Hm. destruct Hm as (p & c2 & _ & _ & -> & _).
    rewrite bump_error_case, <- Hd. exact (crash_after_bounds c2 _). }
  destruct (K_LEFT key).
  { destruct (rotate _ _ _ w1) as [[u w2]|] eqn:Hr; [|discriminate].
    intros H. injection H as _ <-. apply Hrot in Hr. cbn [snd]. lia. }
  destruct (K_RIGHT key).
  { destruct (rotate _ _ _ w1) as [[u w2]|] eqn:Hr; [|discriminate].
    intros H. injection H as _ <-. apply Hrot in Hr. cbn [snd]. lia. }
  destruct (K_UP key).
  { destruct (move _ _ _ _) as [[u w2]|] eqn:Hm; [|discriminate].
    intros H. injection H as _ <-. apply Hmov in Hm; [|reflexivity]. cbn [snd]. lia. }
  destruct (K_DOWN key).
  { destruct (move _ _ _ _) as [[u w2]|] eqn:Hm; [|discriminate].
    intros H. injection H as _ <-. apply Hmov in Hm; [|reflexivity]. cbn [snd]. lia. }
  intros H. injection H as _ <-. lia.
Qed.

Lemma handle_keys_state (maze : Surface) (key : Keys) (w w' : World) (b : bool) :
  handle_keys cos sin lidar_check_bounds maze key w = Some (b, w') ->
  time_in_air (self w') = tick (time_in_air (self w)) /\
  state (self w') = if tick (time_in_air (self w)) =? 0 then Member LAND
                    else if is_land (state (self w)) then Member TAKE_OFF
                    else state (self w).
Proof.
  rewrite handle_keys_eq. cbv zeta. rewrite entered_time.
  pose proof (entered_state (self w)) as Hs.
  pose proof (entered_time (self w)) as Ht.
  destruct (tick (time_in_air (self w)) =? 0).
  { intros H. injection H as _ <-. split; reflexivity. }
  destruct (check_bounds lidar_check_bounds maze _) as [[b1 w1]|] eqn:Hcb; [|discriminate].
  apply check_bounds_self in Hcb. destruct Hcb as (c & _ & Hw1). cbn [self] in Hw1.
  destruct (bump_frame c (entered (self w))) as (Bs & _ & _ & Bt & _).
  rewrite <- Hw1, Hs in Bs. rewrite <- Hw1, Ht in Bt.
  assert (Hrot : forall dir u w2, rotate lidar_check_bounds maze dir w1 = Some (u, w2) ->
            time_in_air (self w2) = time_in_air (self w1) /\ state (self w2) = state (self w1)).
  { intros dir u w2 Hr. apply rotate_self in Hr. destruct Hr as (c2 & y & _ & _ & ->).
    destruct (bump_frame c2 (set_lidars (map (add_angle (dir * speed (self w1))) (lidars (self w1)))
                              (set_yaw y (self w1)))) as (Cs & _ & _ & Ct & _).
    rewrite Cs, Ct. split; reflexivity. }
  assert (Hmov : forall d g u w2,
            time_in_air d = time_in_air (self w1) -> state d = state (self w1) ->
            move cos sin maze (mkWorld d g) = Some (u, w2) ->
            time_in_air (self w2) = time_in_air (self w1) /\ state (self w2) = state (self w1)).
  { intros d g u w2 Hdt Hds Hm. apply move_self in Hm.
    destruct Hm as (p & c2 & _ & _ & -> & _). cbn [self].
    destruct (bump_frame c2 (set_lidars (map (lidar_move p) (lidars d)) (advanced cos sin d)))
      as (Cs & _ & _ & Ct & _).
    rewrite Cs, Ct, <- Hdt, <- Hds. split; reflexivity. }
  destruct (K_LEFT key).
  { destruct (rotate _ _ _ w1) as [[u w2]|] eqn:Hr; [|discriminate].
    intros H. injection H as _ <-. apply Hrot in Hr. cbn [snd].
    destruct Hr as [-> ->]. split; assumption. }
  destruct (K_RIGHT key).
  { destruct (rotate _ _ _ w1) as [[u w2]|] eqn:Hr; [|discriminate].
    intros H. injection H as _ <-. apply Hrot in Hr. cbn [snd].
    destruct Hr as [-> ->]. split; assumption. }
  destruct (K_UP key).
  { destruct (move _ _ _ _) as [[u w2]|] eqn:Hm; [|discriminate].
    intros H. injection H as _ <-. apply Hmov in Hm; [|reflexivity|reflexivity]. cbn [snd].
    destruct Hm as [-> ->]. split; assumption. }
  destruct (K_DOWN key).
  { destruct (move _ _ _ _) as [[u w2]|] eqn:Hm; [|discriminate].
    intros H. injection H as _ <-. apply Hmov in Hm; [|reflexivity|reflexivity]. cbn [snd].
    destruct Hm as [-> ->]. split; assumption. }
  intros H. injection H as _ <-. split; assumption.
Qed.

Lemma landed_landed (w : World) : landed (landed w) = landed w.
Proof. reflexivity. Qed.

Lemma handle_keys_spent (maze : Surface) (key : Keys) (w : World) :
  (time_in_air (self w) <=? 0) = true ->
  (neg_infinity <? time_in_air (self w)) = true ->
  handle_keys cos sin lidar_check_bounds maze key w = Some (false, landed w).
Proof.
  intros Hle Hfin. rewrite handle_keys_eq. cbv zeta.
  rewrite entered_time, (tick_spent _ Hle Hfin).
  change (0 =? 0) with true. cbv iota.
  unfold landed, entered. rewrite (tick_spent _ Hle Hfin).
  destruct (is_land (state (self w))); reflexivity.
Qed.

(** X1: with the throttle methods called as [handle_keys] calls them,
    [forward()] and [backward()] at their default [acc = 1.], the speed
    never leaves the interval from 0 to 2.  From a speed between 0 and 2,
    every list of [forward()], [backward()], [rotate], [move] and
    [handle_keys] calls that returns, in any order and on any raster,
    leaves a speed between 0 and 2: [forward()] stops at 2, below
    [MAX_SPEED = 3], and [backward()] never stores a negative speed.
    Another [acc] is outside this statement, and it can leave the
    interval, as [throttle_with_another_acc] shows. *)
Theorem speed_stays_between_0_and_2 (maze : Surface) (cs : list Call)
    (w w' : World) (u : unit) :
  in_range (self w) ->
  calls cos sin lidar_check_bounds maze cs w = Some (u, w') ->
  in_range (self w').
Proof.
  intros Hr Hc.
  refine (calls_keep in_range _ _ _ _ _ _ _ _ maze cs w w' u Hc Hr);
    try (intros; assumption).
  - intros d [A B]. destruct (forward_in_range _ A B) as (F1 & F2 & _).
    split; [apply ltb_leb, F1 | exact F2].
  - intros d [A B]. destruct (backward_in_range _ A B) as (F1 & F2).
    split; [apply ltb_leb, F1 | exact F2].
Qed.

(** X4: every [handle_keys] call charges the budget exactly once, whatever
    the keys and whatever the raster: after a run of [n] calls the budget
    is the [n]-fold charge of the budget before, and the run has given [n]
    answers. *)
Theorem every_call_charges_the_budget_once (maze : Surface) (keys : list Keys)
    (w w' : World) (bs : list bool) :
  run cos sin lidar_check_bounds maze keys w = Some (bs, w') ->
  time_in_air (self w') = Nat.iter (List.length keys) tick (time_in_air (self w)) /\
  List.length bs = List.length keys.
Proof. apply run_time. Qed.

(** X5: a budget that has passed zero is repaired one call later, and the
    drone never flies again.  With a finite budget at or below zero, the
    next call sets the budget to exactly 0, sets [state] to [LAND] and
    answers [False]; every call after it answers [False] and leaves the
    drone and the screen as they are, whatever the keys. *)
Theorem spent_budget_lands_for_good (maze : Surface) (k : Keys) (keys : list Keys)
    (w : World) :
  (time_in_air (self w) <=? 0) = true ->
  (neg_infinity <? time_in_air (self w)) = true ->
  run cos sin lidar_check_bounds maze (k :: keys) w
  = Some (repeat false (S (List.length keys)), landed w).
Proof.
  intros Hle Hfin. cbn [run]. unfold bind at 1.
  rewrite (handle_keys_spent maze k w Hle Hfin).
  assert (Hrest : forall ks, run cos sin lidar_check_bounds maze ks (landed w)
                             = Some (repeat false (List.length ks), landed w)).
  { induction ks as [|k1 ks IH]; [reflexivity|].
    cbn [run]. unfold bind at 1.
    rewrite (handle_keys_spent maze k1 (landed w)) by reflexivity.
    rewrite landed_landed. unfold bind at 1. rewrite IH. reflexivity. }
  unfold bind at 1. rewrite Hrest. reflexivity.
Qed.

(** X6: the drone never shows [TAKE_OFF] or [GROUND].  A drone whose
    [state] is the class [DroneState], as [__init__] leaves it, or [LAND]
    with the budget at zero, is in one of these two situations after every
    list of method calls that returns: [TAKE_OFF] is stored only on entry
    to a call that finds the budget spent and stores [LAND] again. *)
Theorem state_is_never_take_off (maze : Surface) (cs : list Call)
    (w w' : World) (u : unit) :
  grounded (self w) ->
  calls cos sin lidar_check_bounds maze cs w = Some (u, w') ->
  grounded (self w').
Proof.
  revert w. induction cs as [|c cs IH]; intros w HP H.
  - injection H as _ <-. exact HP.
  - cbn [calls] in H. unfold bind at 1 in H.
    destruct (call cos sin lidar_check_bounds maze c w) as [[u1 w1]|] eqn:Hc; [|discriminate].
    apply (IH w1); [|exact H]. clear H IH.
    destruct c as [| |direction| |key]; cbn [call] in Hc.
    + injection Hc as _ <-. exact HP.
    + injection Hc as _ <-. exact HP.
    + apply rotate_self in Hc. destruct Hc as (c2 & y & _ & _ & ->).
      unfold grounded.
      destruct (bump_frame c2 (set_lidars (map (add_angle (direction * speed (self w)))
                                             (lidars (self w))) (set_yaw y (self w))))
        as (-> & _ & _ & -> & _). exact HP.
    + apply move_self in Hc. destruct Hc as (p & c2 & _ & _ & -> & _).
      unfold grounded.
      destruct (bump_frame c2 (set_lidars (map (lidar_move p) (lidars (self w)))
                                 (advanced cos sin (self w))))
        as (-> & _ & _ & -> & _). exact HP.
    + unfold bind at 1 in Hc.
      destruct (handle_keys _ _ _ _ _ w) as [[b w2]|] eqn:Hk; [|discriminate].
      injection Hc as _ <-. apply handle_keys_state in Hk. destruct Hk as [Ht Hs].
      unfold grounded. rewrite Ht, Hs.
      destruct HP as [HP | [HP Hz]]; rewrite HP; cbn [is_land].
      * destruct (tick (time_in_air (self w)) =? 0) eqn:Hz; [right|left]; auto.
      * apply eqb_zero_cases in Hz. right.
        destruct Hz as [-> | ->]; split; reflexivity.
Qed.

(** X7: no method writes [mode], [score], [radius], [color] or
    [bounds_color], and none adds or removes a lidar: after every list of
    method calls that returns they are what they were. *)
Theorem calls_write_no_build_field (maze : Surface) (cs : list Call)
    (w w' : World) (u : unit) :
  calls cos sin lidar_check_bounds maze cs w = Some (u, w') ->
  same_build (self w) (self w').
Proof.
  intros Hc.
  refine (calls_keep (same_build (self w))
            _ _ _ _ _ _ _ _ maze cs w w' u Hc _);
    try (intros; assumption).
  - intros ls d (A & B & C & D & E & F) Hl. repeat split; try assumption.
    cbn [lidars set_lidars]. now rewrite Hl.
  - repeat split.
Qed.

(** X8: the crash count never goes down, and one [handle_keys] call adds
    at most two: one for the sample on entry and one for the sample of the
    intent it executes.  Over a run of [n] calls the count grows by at
    most [2 * n]. *)
Theorem crash_count_grows_by_at_most_two_per_call (maze : Surface) (keys : list Keys)
    (w w' : World) (bs : list bool) :
  run cos sin lidar_check_bounds maze keys w = Some (bs, w') ->
  (error_case (self w) <= error_case (self w')
   <= error_case (self w) + 2 * Z.of_nat (List.length keys))%Z.
Proof.
  revert w w' bs. induction keys as [|k keys IH]; intros w w' bs.
  - cbn. intros H. injection H as _ <-. lia.
  - cbn [run]. unfold bind at 1.
    destruct (handle_keys _ _ _ _ k w) as [[b w1]|] eqn:Hk; [|discriminate].
    unfold bind at 1.
    destruct (run _ _ _ _ keys w1) as [[bs1 w2]|] eqn:Hr; [|discriminate].
    intros H. injection H as _ <-.
    apply handle_keys_crash in Hk. apply IH in Hr.
    cbn [List.length]. lia.
Qed.

(** X9: a call with no key pressed, on a budget that the charge does not
    bring to zero, answers [False] and samples the pixel under the drone
    once: the crash count goes up by one exactly when that pixel has the
    bounds colour, the budget is charged, the lidars' sightings are drawn,
    and position, yaw, speed and lidars are left alone. *)
Theorem idle_call_samples_once (maze : Surface) (w : World) (c : Color) :
  (tick (time_in_air (self w)) =? 0) = false ->
  own_pixel maze (self w) = Some c ->
  exists w',
    handle_keys cos sin lidar_check_bounds maze no_key w = Some (false, w') /\
    error_case (self w') = crash_after c (self w) /\
    time_in_air (self w') = tick (time_in_air (self w)) /\
    (x_position (self w'), y_position (self w')) = (x_position (self w), y_position (self w)) /\
    (yaw (self w'), speed (self w')) = (yaw (self w), speed (self w)) /\
    lidars (self w') = lidars (self w) /\
    game_display w' = sightings lidar_check_bounds maze (lidars (self w)) (game_display w).
Proof.
  intros Ht Hc. rewrite handle_keys_eq. cbv zeta. rewrite entered_time, Ht.
  rewrite check_bounds_eq. cbn [self game_display].
  destruct (entered_frame (self w)) as (Ey & Es & Ee & Ex & Eyp & El & Eb).
  assert (Hown : own_pixel maze (entered (self w)) = Some c).
  { unfold own_pixel. rewrite Ex, Eyp. exact Hc. }
  rewrite Hown. cbn [K_LEFT K_RIGHT K_UP K_DOWN no_key].
  eexists. split; [reflexivity|]. cbn [self game_display].
  unfold crash_after. rewrite Eb, El.
  destruct (color_eqb c (bounds_color (self w)));
    cbn [error_case time_in_air x_position y_position yaw speed lidars set_error_case];
    rewrite ?Ee, ?Ex, ?Eyp, ?Ey, ?Es, ?El, ?entered_time;
    repeat split; lia.
Qed.

(** X10: one call executes at most one intent.  A key table acts as its
    first pressed key in the order left, right, up, down; and a call that
    returns answers [True] exactly when the charge has not brought the
    budget to zero and some arrow key is pressed. *)
Theorem one_intent_per_call (maze : Surface) (key : Keys) (w : World) :
  handle_keys cos sin lidar_check_bounds maze key w
  = handle_keys cos sin lidar_check_bounds maze (dominant key) w /\
  forall b w',
    handle_keys cos sin lidar_check_bounds maze key w = Some (b, w') ->
    b = negb (tick (time_in_air (self w)) =? 0)
        && (K_LEFT key || K_RIGHT key || K_UP key || K_DOWN key).
Proof.
  split.
  - rewrite !handle_keys_eq. destruct key as [[|] [|] [|] [|]]; reflexivity.
  - intros b w'. rewrite handle_keys_eq. cbv zeta. rewrite entered_time.
    destruct (tick (time_in_air (self w)) =? 0).
    { intros H. injection H as <- _. reflexivity. }
    destruct (check_bounds lidar_check_bounds maze _) as [[b1 w1]|]; [|discriminate].
    destruct key as [[|] [|] [|] [|]]; cbn [K_LEFT K_RIGHT K_UP K_DOWN];
      try (destruct (rotate _ _ _ w1) as [[u1 w2]|]; [|discriminate]);
      try (destruct (move _ _ _ _) as [[u1 w2]|]; [|discriminate]);
      intros H; injection H as <- _; reflexivity.
Qed.

(** X11: [rotate] turns the drone in place.  It raises exactly when the
    pixel under the drone cannot be sampled; when it returns, position,
    budget and [state] are unchanged, every lidar keeps its mount position
    and range, and the screen has gained the sightings of the turned
    lidars. *)
Theorem rotate_turns_in_place (maze : Surface) (direction : float) (w : World) :
  (rotate lidar_check_bounds maze direction w = None <-> own_pixel maze (self w) = None) /\
  forall u w',
    rotate lidar_check_bounds maze direction w = Some (u, w') ->
    (x_position (self w'), y_position (self w')) = (x_position (self w), y_position (self w)) /\
    time_in_air (self w') = time_in_air (self w) /\
    state (self w') = state (self w) /\
    map mount_position (lidars (self w')) = map mount_position (lidars (self w)) /\
    map max_range (lidars (self w')) = map max_range (lidars (self w)) /\
    game_display w'
    = sightings lidar_check_bounds maze (lidars (self w')) (game_display w).
Proof.
  rewrite rotate_eq. cbv zeta.
  destruct (rotate_yaw_total direction (speed (self w)) (yaw (self w))) as [y ->].
  split.
  - destruct (own_pixel maze (self w)); split; intros H; try discriminate; reflexivity.
  - intros u w'. destruct (own_pixel maze (self w)) as [c|]; [|discriminate].
    intros H. injection H as _ <-. cbn [self game_display].
    assert (Hm : forall f ls, map mount_position (map (add_angle f) ls) = map mount_position ls).
    { intros f ls. rewrite map_map. apply map_ext. reflexivity. }
    assert (Hr : forall f ls, map max_range (map (add_angle f) ls) = map max_range ls).
    { intros f ls. rewrite map_map. apply map_ext. reflexivity. }
    destruct (color_eqb c (bounds_color (self w)));
      cbn [x_position y_position time_in_air state lidars set_error_case set_lidars set_yaw];
      rewrite Hm, Hr; repeat split.
Qed.

(** X12: [move] carries the lidars along.  When it returns, the drone's
    rounded position is a pixel of the raster, every lidar is mounted at
    that pixel and keeps its relative angle, and yaw, speed and budget are
    unchanged. *)
Theorem move_carries_the_lidars (maze : Surface) (w w' : World) (u : unit) :
  move cos sin maze w = Some (u, w') ->
  exists p,
    rounded_position (self w') = Some p /\
    in_surface maze p = true /\
    Forall (fun l => mount_position l = p) (lidars (self w')) /\
    map relative_angle (lidars (self w')) = map relative_angle (lidars (self w)) /\
    (yaw (self w'), speed (self w')) = (yaw (self w), speed (self w)) /\
    time_in_air (self w') = time_in_air (self w).
Proof.
  intros H. apply move_self in H. destruct H as (p & c & Hp & Hc & Hs & _).
  exists p. rewrite Hs.
  set (d1 := set_lidars (map (lidar_move p) (lidars (self w))) (advanced cos sin (self w))).
  destruct (bump_frame c d1) as (_ & By & Bs & Bt & Bx & Byp & Bl).
  unfold rounded_position. rewrite Bx, Byp, Bl, By, Bs, Bt.
  split; [exact Hp|]. split.
  { unfold get_at in Hc. destruct (in_surface maze p); [reflexivity|discriminate]. }
  split.
  { subst d1. cbn [lidars set_lidars]. apply Forall_forall. intros l Hl.
    apply in_map_iff in Hl. destruct Hl as (l0 & <- & _). reflexivity. }
  split.
  { subst d1. cbn [lidars set_lidars]. rewrite map_map. apply map_ext. reflexivity. }
  split; reflexivity.
Qed.

(** X13: [is_crashed] raises exactly when the pixel at the rounded position
    cannot be sampled; when it returns it answers [True] exactly when that
    pixel has the bounds colour, it has counted one crash exactly when it
    answers [True], and it has moved nothing. *)
Theorem is_crashed_answers_what_it_counts (maze : Surface) (w : World) :
  (is_crashed maze w = None <-> rounded_pixel maze (self w) = None) /\
  forall b w',
    is_crashed maze w = Some (b, w') ->
    (b = true <-> rounded_pixel maze (self w) = Some (bounds_color (self w))) /\
    error_case (self w') = (error_case (self w) + (if b then 1 else 0))%Z /\
    (x_position (self w'), y_position (self w')) = (x_position (self w), y_position (self w)) /\
    game_display w' = game_display w.
Proof.
  rewrite is_crashed_eq.
  destruct (rounded_pixel maze (self w)) as [c|].
  - split; [destruct (color_eqb c (bounds_color (self w))); split; discriminate|].
    intros b w'. destruct (color_eqb c (bounds_color (self w))) eqn:Hc; intros H;
      injection H as <- <-; cbn [self game_display error_case set_error_case
                                   x_position y_position].
    + apply color_eqb_eq in Hc. subst c. repeat split.
    + repeat split; try lia; try discriminate.
      intros H. injection H as ->. now rewrite color_eqb_refl in Hc.
  - split; [split; reflexivity|]. intros b w' H. discriminate H.
Qed.

(** X17: a drone that has left the raster makes every call raise while
    budget remains.  When the pixel under the drone cannot be sampled, a
    position off the raster or not a finite number, and the charge does
    not bring the budget to zero, [handle_keys] raises whatever the keys,
    before any intent is read. *)
Theorem handle_keys_raises_off_the_raster (maze : Surface) (key : Keys) (w : World) :
  (tick (time_in_air (self w)) =? 0) = false ->
  own_pixel maze (self w) = None ->
  handle_keys cos sin lidar_check_bounds maze key w = None.
Proof.
  intros Ht Hc. rewrite handle_keys_eq. cbv zeta. rewrite entered_time, Ht.
  rewrite check_bounds_eq. cbn [self game_display].
  destruct (entered_frame (self w)) as (_ & _ & _ & Ex & Eyp & _).
  replace (own_pixel maze (entered (self w))) with (@None Color); [reflexivity|].
  unfold own_pixel. rewrite Ex, Eyp. symmetry. exact Hc.
Qed.

End CallFacts.

(** The default [acc] matters: [forward(-1.)] from rest stores a negative
    speed and [backward(-20.)] from rest stores 4. *)
Example throttle_with_another_acc :
  forward_speed (-1) 0 = -0.2 /\ backward_speed (-20) 0 = 4.
Proof. split; reflexivity. Qed.

(** X1 for the short flight of a fresh drone. *)
Lemma speed_stays_witness :
  exists w',
    calls cos_axis sin_axis blind (field 400 200) short_flight (fresh 100 100 three_lidars)
    = Some (tt, w') /\
    in_range (self w').
Proof.
  eexists. split; [vm_compute; reflexivity|].
  apply (speed_stays_between_0_and_2 cos_axis sin_axis blind (field 400 200) short_flight
           (fresh 100 100 three_lidars) _ tt).
  - split; reflexivity.
  - vm_compute. reflexivity.
Defined.

(** X4 for three calls on a fresh drone. *)
Lemma budget_charge_witness :
  exists bs w',
    run cos_axis sin_axis blind (field 400 200) [up_key; no_key; left_key]
      (fresh 100 100 three_lidars) = Some (bs, w') /\
    time_in_air (self w') = tick (tick (tick MAX_FLIGHT_TIME)) /\
    List.length bs = 3%nat.
Proof.
  eexists. eexists. split; [vm_compute; reflexivity|].
  apply (every_call_charges_the_budget_once cos_axis sin_axis blind (field 400 200)
           [up_key; no_key; left_key] (fresh 100 100 three_lidars)).
  vm_compute. reflexivity.
Defined.

(** X5 for the budget 7500 calls leave behind. *)
Lemma spent_budget_witness :
  run cos_axis sin_axis blind (field 400 200) [up_key; left_key; no_key] overdrawn
  = Some ([false; false; false], landed overdrawn).
Proof.
  apply (spent_budget_lands_for_good cos_axis sin_axis blind (field 400 200)
           up_key [left_key; no_key] overdrawn); reflexivity.
Defined.

(** X6 for the short flight of a fresh drone. *)
Lemma never_take_off_witness :
  exists w',
    calls cos_axis sin_axis blind (field 400 200) short_flight (fresh 100 100 three_lidars)
    = Some (tt, w') /\
    grounded (self w').
Proof.
  eexists. split; [vm_compute; reflexivity|].
  apply (state_is_never_take_off cos_axis sin_axis blind (field 400 200) short_flight
           (fresh 100 100 three_lidars) _ tt).
  - left. reflexivity.
  - vm_compute. reflexivity.
Defined.

(** X7 for the short flight of a fresh drone. *)
Lemma build_fields_witness :
  exists w',
    calls cos_axis sin_axis blind (field 400 200) short_flight (fresh 100 100 three_lidars)
    = Some (tt, w') /\
    same_build (self (fresh 100 100 three_lidars)) (self w').
Proof.
  eexists. split; [vm_compute; reflexivity|].
  apply (calls_write_no_build_field cos_axis sin_axis blind (field 400 200) short_flight
           (fresh 100 100 three_lidars) _ tt).
  vm_compute. reflexivity.
Defined.

(** X8 for a turn on a wall pixel, which counts two crashes in one call. *)
Lemma crash_count_witness :
  exists bs w',
    run cos_axis sin_axis blind (walls_except 20 20 (3, 3)%Z) [left_key] on_the_wall
    = Some (bs, w') /\
    error_case (self w') = 2%Z /\
    (error_case (self on_the_wall) <= error_case (self w')
     <= error_case (self on_the_wall) + 2 * Z.of_nat (List.length [left_key]))%Z.
Proof.
  eexists. eexists. split; [vm_compute; reflexivity|]. split; [reflexivity|].
  apply (crash_count_grows_by_at_most_two_per_call cos_axis sin_axis blind
           (walls_except 20 20 (3, 3)%Z) [left_key] on_the_wall _ [true]).
  vm_compute. reflexivity.
Defined.

(** X9 for an idle call on a wall pixel. *)
Lemma idle_call_witness :
  exists w',
    handle_keys cos_axis sin_axis blind (walls_except 20 20 (3, 3)%Z) no_key on_the_wall
    = Some (false, w') /\
    error_case (self w') = crash_after black (self on_the_wall) /\
    time_in_air (self w') = tick (time_in_air (self on_the_wall)) /\
    (x_position (self w'), y_position (self w'))
    = (x_position (self on_the_wall), y_position (self on_the_wall)) /\
    (yaw (self w'), speed (self w')) = (yaw (self on_the_wall), speed (self on_the_wall)) /\
    lidars (self w') = lidars (self on_the_wall) /\
    game_display w'
    = sightings blind (walls_except 20 20 (3, 3)%Z) (lidars (self on_the_wall))
        (game_display on_the_wall).
Proof.
  apply (idle_call_samples_once cos_axis sin_axis blind (walls_except 20 20 (3, 3)%Z)
           on_the_wall black); reflexivity.
Defined.

(** X12 for a drone that leaves the only white pixel of a black raster. *)
Lemma move_carries_witness :
  exists w',
    move cos_axis sin_axis (walls_except 20 20 (3, 3)%Z) walled_in = Some (tt, w') /\
    exists p,
      rounded_position (self w') = Some p /\
      in_surface (walls_except 20 20 (3, 3)%Z) p = true /\
      Forall (fun l => mount_position l = p) (lidars (self w')) /\
      map relative_angle (lidars (self w')) = map relative_angle (lidars (self walled_in)) /\
      (yaw (self w'), speed (self w')) = (yaw (self walled_in), speed (self walled_in)) /\
      time_in_air (self w') = time_in_air (self walled_in).
Proof.
  eexists. split; [vm_compute; reflexivity|].
  apply (move_carries_the_lidars cos_axis sin_axis (walls_except 20 20 (3, 3)%Z)
           walled_in _ tt).
  vm_compute. reflexivity.
Defined.

(** X17 for a fresh drone to the right of the white field. *)
Lemma off_the_raster_witness :
  handle_keys cos_axis sin_axis blind (field 400 200) left_key off_the_raster = None.
Proof.
  apply (handle_keys_raises_off_the_raster cos_axis sin_axis blind (field 400 200)
           left_key off_the_raster); reflexivity.
Defined.

(** ** The two samplers *)

Section PixelFacts.

Local Open Scope Z_scope.

Lemma round_near_int (s : bool) (m : positive) (e : Z) :
  Z.abs (cond_Zopp s (round_half_even m e) - cond_Zopp s (Z.shiftl (Zpos m) e)) <= 1.
Proof.
  unfold round_half_even.
  destruct (0 <=? e) eqn:He.
  - destruct s; cbn [cond_Zopp]; lia.
  - apply Z.leb_gt in He. cbv zeta.
    replace (Z.shiftl (Zpos m) e) with (Z.shiftr (Zpos m) (- e))
      by (unfold Z.shiftr; now rewrite Z.opp_involutive).
    set (q := Z.shiftr (Zpos m) (- e)).
    destruct (2 * (Zpos m mod 2 ^ (- e)) ?= 2 ^ (- e)); [destruct (Z.even q)| |];
      destruct s; cbn [cond_Zopp]; lia.
Qed.

Lemma py_round_near_py_int (x : float) (i : Z) :
  py_int x = Some i -> exists r, py_round x = Some r /\ Z.abs (r - i) <= 1.
Proof.
  unfold py_int, py_round.
  destruct (Prim2SF x) as [b|b| |b m e]; try discriminate.
  - intros H. injection H as <-. exists 0. split; [reflexivity|lia].
  - intros H. injection H as <-. eexists. split; [reflexivity|]. apply round_near_int.
Qed.

End PixelFacts.

Section SamplerFacts.

Variable lidar_check_bounds : Lidar -> Surface -> option (Z * Z).

(** X14: [check_bounds] and [is_crashed] do not sample the same pixel.
    Whenever [check_bounds] returns, the pixel [(int(x), int(y))] it has
    sampled is on the raster and [get_position] returns a pixel at most one
    away from it in each coordinate; [is_crashed], which samples that
    second pixel, raises on the same drone exactly when the second pixel is
    off the raster, as it is at the raster's far edge. *)
Theorem samplers_are_one_pixel_apart (maze : Surface) (w w1 : World) (b : bool) :
  check_bounds lidar_check_bounds maze w = Some (b, w1) ->
  exists ix iy rx ry,
    py_int (x_position (self w)) = Some ix /\
    py_int (y_position (self w)) = Some iy /\
    in_surface maze (ix, iy) = true /\
    get_position w = Some ((rx, ry), w) /\
    (Z.abs (rx - ix) <= 1)%Z /\ (Z.abs (ry - iy) <= 1)%Z /\
    (is_crashed maze w = None <-> in_surface maze (rx, ry) = false).
Proof.
  rewrite check_bounds_eq. unfold own_pixel.
  destruct (py_int (x_position (self w))) as [ix|] eqn:Hx; [|discriminate].
  destruct (py_int (y_position (self w))) as [iy|] eqn:Hy; [|discriminate].
  destruct (get_at maze (ix, iy)) as [c|] eqn:Hc; [|discriminate].
  intros _.
  destruct (py_round_near_py_int _ _ Hx) as (rx & Hrx & Bx).
  destruct (py_round_near_py_int _ _ Hy) as (ry & Hry & By).
  exists ix, iy, rx, ry.
  split; [reflexivity|]. split; [reflexivity|]. split.
  { unfold get_at in Hc. destruct (in_surface maze (ix, iy)); [reflexivity|discriminate]. }
  split.
  { rewrite get_position_eq. unfold rounded_position. rewrite Hrx, Hry. reflexivity. }
  split; [exact Bx|]. split; [exact By|].
  rewrite is_crashed_eq. unfold rounded_pixel, get_at. rewrite Hrx, Hry.
  destruct (in_surface maze (rx, ry)).
  - destruct (color_eqb _ _); split; discriminate.
  - split; reflexivity.
Qed.

End SamplerFacts.

(** X14 for a drone near the right edge of the white field. *)
Lemma samplers_witness :
  exists ix iy rx ry,
    py_int (x_position (self at_the_edge)) = Some ix /\
    py_int (y_position (self at_the_edge)) = Some iy /\
    in_surface (field 400 200) (ix, iy) = true /\
    get_position at_the_edge = Some ((rx, ry), at_the_edge) /\
    (Z.abs (rx - ix) <= 1)%Z /\ (Z.abs (ry - iy) <= 1)%Z /\
    (is_crashed (field 400 200) at_the_edge = None
     <-> in_surface (field 400 200) (rx, ry) = false).
Proof.
  apply (samplers_are_one_pixel_apart blind (field 400 200) at_the_edge
           (mkWorld (self at_the_edge) []) false).
  vm_compute. reflexivity.
Defined.

(** There [check_bounds] returns and [is_crashed] raises: the first samples
    column 399, the second column 400 of a raster 400 pixels wide. *)
Example samplers_at_the_edge :
  option_map fst (check_bounds blind (field 400 200) at_the_edge) = Some false /\
  option_map fst (get_position at_the_edge) = Some (400, 100)%Z /\
  is_crashed (field 400 200) at_the_edge = None.
Proof. repeat split. Qed.

(** The two pixels do differ: at [(2.6, 7.5)] one sampler sees a wall where
    the other sees none. *)
Example samplers_differ :
  rounded_position between_pixels = Some (3, 8)%Z /\
  own_pixel (walls_except 20 20 (3, 8)%Z) between_pixels = Some black /\
  rounded_pixel (walls_except 20 20 (3, 8)%Z) between_pixels = Some white.
Proof. repeat split. Qed.

(** ** Turning at rest *)

Lemma SF_360 : Prim2SF 360 = S754_finite false 6333186975989760 (-44).
Proof. reflexivity. Qed.

(** A finite factor times a zero speed is a zero. *)
Lemma mul_zero_speed (direction speed : float) :
  (neg_infinity <? direction) = true -> (direction <? infinity) = true ->
  (speed =? 0) = true ->
  direction * speed = 0 \/ direction * speed = -0.
Proof.
  intros Hlo Hhi Hs. apply eqb_zero_cases in Hs.
  assert (Hz : exists b, Prim2SF speed = S754_zero b).
  { destruct Hs as [-> | ->]; eexists; reflexivity. }
  destruct Hz as [b Hz].
  rewrite ltb_spec in Hlo, Hhi.
  replace (Prim2SF neg_infinity) with (S754_infinity true) in Hlo by reflexivity.
  replace (Prim2SF infinity) with (S754_infinity false) in Hhi by reflexivity.
  assert (Hp : exists b', Prim2SF (direction * speed) = S754_zero b').
  { rewrite mul_spec, Hz. unfold SF64mul.
    destruct (Prim2SF direction) as [s|s| |s m e].
    - eexists. reflexivity.
    - destruct s; discriminate.
    - discriminate.
    - eexists. reflexivity. }
  destruct Hp as [b' Hp]. exact (zero_cases _ _ Hp).
Qed.

Lemma rotate_yaw_standing (direction speed yaw : float) :
  (neg_infinity <? direction) = true -> (direction <? infinity) = true ->
  (speed =? 0) = true ->
  (0 <=? yaw) = true -> (yaw <? 360) = true ->
  exists y, rotate_yaw direction speed yaw = Some y /\ (y =? yaw) = true.
Proof.
  intros Hlo Hhi Hs H0 H360.
  pose proof (mul_zero_speed direction speed Hlo Hhi Hs) as Hz.
  unfold rotate_yaw. cbv zeta.
  destruct (between_cases yaw 360 _ _ SF_360 H0 (ltb_leb _ _ H360))
    as [[b Hy] | (m & e & Hy & _)].
  - apply zero_cases in Hy.
    destruct Hy as [-> | ->]; destruct Hz as [-> | ->]; eexists; split; reflexivity.
  - assert (Hsum : yaw + direction * speed = yaw).
    { apply Prim2SF_inj. rewrite add_spec, Hy.
      destruct Hz as [-> | ->]; reflexivity. }
    rewrite Hsum.
    rewrite (ltb_units yaw 360 _ _ _ _ Hy SF_360) in H360.
    rewrite (leb_units 360 yaw _ _ _ _ SF_360 Hy).
    apply Z.ltb_lt in H360.
    replace (units 6333186975989760 (-44) <=? units m e)%Z with false
      by (symmetry; apply Z.leb_gt; exact H360).
    replace (yaw <? 0) with false.
    + exists yaw. split; [reflexivity|].
      rewrite FloatAxioms.eqb_spec, Hy. unfold SFeqb.
      rewrite SFcompare_units by (rewrite <- Hy; apply Prim2SF_valid).
      now rewrite Z.compare_refl.
    + symmetry. rewrite ltb_spec, Hy. reflexivity.
Qed.

Section StandingFacts.

Variable lidar_check_bounds : Lidar -> Surface -> option (Z * Z).

(** X15: a drone at rest does not turn.  At speed zero, with the yaw in
    [0, 360) and a finite direction, a [rotate] that returns leaves a yaw
    equal to the one before: the arrow keys turn a fresh drone only after
    a throttle call. *)
Theorem standing_drone_does_not_turn (maze : Surface) (direction : float)
    (w w' : World) (u : unit) :
  (neg_infinity <? direction) = true -> (direction <? infinity) = true ->
  (speed (self w) =? 0) = true ->
  (0 <=? yaw (self w)) = true -> (yaw (self w) <? 360) = true ->
  rotate lidar_check_bounds maze direction w = Some (u, w') ->
  (yaw (self w') =? yaw (self w)) = true.
Proof.
  intros Hlo Hhi Hs H0 H360 Hr.
  apply rotate_self in Hr. destruct Hr as (c & y & _ & Hy & ->).
  destruct (rotate_yaw_standing _ _ _ Hlo Hhi Hs H0 H360) as (y' & Hy' & He).
  rewrite Hy in Hy'. injection Hy' as <-.
  destruct (bump_frame c (set_lidars (map (add_angle (direction * speed (self w)))
                                        (lidars (self w))) (set_yaw y (self w))))
    as (_ & -> & _). exact He.
Qed.

End StandingFacts.

(** X15 for a fresh drone told to turn right. *)
Lemma standing_witness :
  exists w',
    rotate blind (field 400 200) 1 (fresh 100 100 three_lidars) = Some (tt, w') /\
    (yaw (self w') =? yaw (self (fresh 100 100 three_lidars))) = true.
Proof.
  eexists. split; [vm_compute; reflexivity|].
  apply (standing_drone_does_not_turn blind (field 400 200) 1
           (fresh 100 100 three_lidars) _ tt); reflexivity.
Defined.

(** ** Telemetry: the fields of the snapshot *)

(** X16: [get_info_dict] raises with fewer than three lidars; when it
    returns, ['head'], ['right'] and ['left'] are the lidars at index 0, 1
    and 2, ['yaw'], ['speed'], ['crash'] and ['score'] are the drone's
    fields, and ['battery'] is the text of the budget. *)
Theorem info_needs_three_lidars (d : Drone) :
  ((List.length (lidars d) < 3)%nat -> get_info_dict d = None) /\
  forall info,
    get_info_dict d = Some info ->
    nth_error (lidars d) 0 = Some (info_head info) /\
    nth_error (lidars d) 1 = Some (info_right info) /\
    nth_error (lidars d) 2 = Some (info_left info) /\
    info_yaw info = yaw d /\ info_speed info = speed d /\
    info_crash info = error_case d /\ info_score info = score d /\
    battery (time_in_air d) = Some (info_battery info).
Proof.
  unfold get_info_dict. split.
  - intros Hl. replace (nth_error (lidars d) 2) with (@None Lidar); [reflexivity|].
    symmetry. apply nth_error_None. lia.
  - intros info.
    destruct (nth_error (lidars d) 2) as [l2|]; [|discriminate].
    destruct (nth_error (lidars d) 1) as [l1|]; [|discriminate].
    destruct (nth_error (lidars d) 0) as [l0|]; [|discriminate].
    destruct (battery (time_in_air d)) as [b|]; [|discriminate].
    intros H. injection H as <-. repeat split.
Qed.
